(** * fitness_tracker: the macro engine and the recommendation adapter of app.py

    A shallow embedding of [src/app.py].  Python floats are IEEE 754 binary64
    numbers and are modelled by Rocq's primitive floats, which are the same
    format with the same round-to-nearest-even arithmetic; Python integers are
    [Z]; the dictionaries of the macro calculator are finite maps; the
    SQLAlchemy session is an explicit store with a pending and a committed
    copy, threaded through the route handlers by a state-and-exception monad. *)

From Stdlib Require Import ZArith Ascii String PrimFloat FloatOps SpecFloat.
From stdpp Require Import gmap strings list.

Set Warnings "-inexact-float,-register-all".

(** ** Exceptions and results *)

Inductive exn : Type :=
| ValueError
| OverflowError
| TypeError
| AttributeError
| KeyError
| IndexError
| ZeroDivisionError
| JSONDecodeError
| ServiceError
| NotFound
| IntegrityError.

Inductive result (A : Type) : Type :=
| Ok (a : A)
| Raise (e : exn).
Arguments Ok {A} a.
Arguments Raise {A} e.

Definition is_ok {A} (r : result A) : bool :=
  match r with Ok _ => true | Raise _ => false end.

(** ** Python numbers *)

Module Py.

(** [float(n)] for an integer operand of a mixed int/float operation: the
    nearest binary64 value, ties to even. *)
Definition of_int (n : Z) : float :=
  SF2Prim (binary_normalize prec emax n 0 false).

(** The integer nearest to [n * 2^e], ties to even. *)
Definition nearest_even (n e : Z) : Z :=
  if (0 <=? e)%Z then (n * 2 ^ e)%Z
  else
    let d := (2 ^ (- e))%Z in
    let q := (n / d)%Z in
    let r := (n mod d)%Z in
    match (2 * r ?= d)%Z with
    | Lt => q
    | Gt => (q + 1)%Z
    | Eq => if Z.even q then q else (q + 1)%Z
    end.

Definition signed (s : bool) (n : Z) : Z := if s then (- n)%Z else n.

(** [round(x)]: round half to even on the exact value of [x], as an
    integer; infinities raise OverflowError and NaN raises ValueError. *)
Definition round (x : float) : result Z :=
  match Prim2SF x with
  | S754_zero _ => Ok 0%Z
  | S754_infinity _ => Raise OverflowError
  | S754_nan => Raise ValueError
  | S754_finite s m e => Ok (signed s (nearest_even (Z.pos m) e))
  end.

(** [round(x, ndigits)] for [ndigits >= 0]: the exact value of [x] is
    rounded half to even to [ndigits] decimals and the decimal obtained is
    converted back to the nearest binary64 value.  Non-finite values and
    zeros round to themselves. *)
Definition round_to (x : float) (ndigits : N) : float :=
  match Prim2SF x with
  | S754_finite s m e =>
      let p := (10 ^ Z.of_N ndigits)%Z in
      match nearest_even (Z.pos m * p) e with
      | Z.pos n =>
          SF2Prim (SFdiv prec emax (S754_finite s n 0)
                                   (S754_finite false (Z.to_pos p) 0))
      | _ => if s then (-0)%float else 0%float
      end
  | _ => x
  end.

(** [int(x)]: truncation toward zero; raises on infinities and NaN. *)
Definition int (x : float) : result Z :=
  match Prim2SF x with
  | S754_zero _ => Ok 0%Z
  | S754_infinity _ => Raise OverflowError
  | S754_nan => Raise ValueError
  | S754_finite s m e =>
      Ok (signed s (if (0 <=? e)%Z then (Z.pos m * 2 ^ e)%Z
                    else (Z.pos m / 2 ^ (- e))%Z))
  end.

Definition is_finite (x : float) : bool :=
  match Prim2SF x with
  | S754_zero _ | S754_finite _ _ _ => true
  | _ => false
  end.

End Py.

(** ** Models (the columns of the SQLAlchemy classes) *)

Module User.
Record t : Type := mk {
  id : Z;
  name : string;
  email : string;
  password_hash : string;
  height : float;
  weight : float;
  is_admin : bool;
  age : Z;
  gender : string;
  activity_level : string;
  goal : string;
  calorie_goal : float;
  protein_goal : float;
  carbs_goal : float;
  fats_goal : float
}.

Definition set_goals (u : t) (cal prot carb fat : float) : t :=
  mk (id u) (name u) (email u) (password_hash u) (height u) (weight u)
     (is_admin u) (age u) (gender u) (activity_level u) (goal u)
     cal prot carb fat.

Definition set_weight (u : t) (w : float) : t :=
  mk (id u) (name u) (email u) (password_hash u) (height u) w
     (is_admin u) (age u) (gender u) (activity_level u) (goal u)
     (calorie_goal u) (protein_goal u) (carbs_goal u) (fats_goal u).

Definition set_settings (u : t) (w : float) (act gl : string) : t :=
  mk (id u) (name u) (email u) (password_hash u) (height u) w
     (is_admin u) (age u) (gender u) act gl
     (calorie_goal u) (protein_goal u) (carbs_goal u) (fats_goal u).

(** The four goal columns. *)
Definition goals (u : t) : float * float * float * float :=
  (calorie_goal u, protein_goal u, carbs_goal u, fats_goal u).
End User.

(** The dictionary returned by [calculate_user_macros]. *)
Module Macros.
Record t : Type := mk {
  bmr : Z;
  tdee : Z;
  calories : Z;
  protein : float;
  carbs : float;
  fats : float
}.
End Macros.

(** ** The macro calculator (app.py, lines 306-361) *)

Section MacroCalculator.
Open Scope float_scope.

Definition activity_multipliers : gmap string float :=
  <["sedentary" := 1.2]> (<["light" := 1.375]> (<["moderate" := 1.55]>
  (<["active" := 1.725]> (<["very_active" := 1.9]> ∅)))).

Definition goal_adjustments : gmap string Z :=
  <["lose" := (-500)%Z]> (<["maintain" := 0%Z]> (<["gain" := 300%Z]> ∅)).

(** The local variables of the function, before any rounding
    (lines 321-345). *)
Record locals : Type := mk_locals {
  l_bmr : float;
  l_tdee : float;
  l_calorie_goal : float;
  l_protein_goal : float;
  l_fats_goal : float;
  l_carbs_goal : float
}.

Definition macro_locals (user : User.t) : locals :=
  let bmr :=
    if decide (User.gender user = "male")
    then (10 * User.weight user) + (6.25 * User.height user)
         - Py.of_int (5 * User.age user) + 5
    else (10 * User.weight user) + (6.25 * User.height user)
         - Py.of_int (5 * User.age user) - 161 in
  let activity_multiplier :=
    default 1.55 (activity_multipliers !! User.activity_level user) in
  let tdee := bmr * activity_multiplier in
  let goal_adjustment := default 0%Z (goal_adjustments !! User.goal user) in
  let calorie_goal := tdee + Py.of_int goal_adjustment in
  let protein_multiplier :=
    if decide (User.goal user = "gain") then 2.2
    else if decide (User.goal user = "lose") then 2.4
    else 2.0 in
  let protein_goal := User.weight user * protein_multiplier in
  let fats_goal := (calorie_goal * 0.25) / 9 in
  let protein_calories := protein_goal * 4 in
  let fat_calories := fats_goal * 9 in
  let remaining_calories := calorie_goal - protein_calories - fat_calories in
  let carbs_goal := remaining_calories / 4 in
  mk_locals bmr tdee calorie_goal protein_goal fats_goal carbs_goal.

(** Lines 347-350: the values assigned to the four goal attributes.
    [round] with one argument raises on a value that is not finite, and
    line 347 is then where the function stops, before any attribute is
    assigned.  The integer [round(calorie_goal)] lands in a Float column. *)
Definition assign_goals (user : User.t) : result User.t :=
  let l := macro_locals user in
  match Py.round (l_calorie_goal l) with
  | Raise e => Raise e
  | Ok cal =>
      Ok (User.set_goals user (Py.of_int cal)
            (Py.round_to (l_protein_goal l) 1)
            (Py.round_to (l_carbs_goal l) 1)
            (Py.round_to (l_fats_goal l) 1))
  end.

(** Lines 354-361: the returned dictionary, its entries evaluated in
    order. *)
Definition macros_dict (user : User.t) : result Macros.t :=
  let l := macro_locals user in
  match Py.round (l_bmr l) with
  | Raise e => Raise e
  | Ok b =>
      match Py.round (l_tdee l) with
      | Raise e => Raise e
      | Ok t =>
          match Py.round (l_calorie_goal l) with
          | Raise e => Raise e
          | Ok cal =>
              Ok (Macros.mk b t cal
                    (Py.round_to (l_protein_goal l) 1)
                    (Py.round_to (l_carbs_goal l) 1)
                    (Py.round_to (l_fats_goal l) 1))
          end
      end
  end.

End MacroCalculator.

(** ** The remaining models *)

Module FoodLog.
Record t : Type := mk {
  id : Z;
  user_id : Z;
  date : Z;
  name : string;
  calories : float;
  protein : float;
  carbs : float;
  fats : float;
  created_at : Z
}.
End FoodLog.

Module WorkoutSession.
Record t : Type := mk {
  id : Z;
  user_id : Z;
  date : Z;
  start_time : Z;
  end_time : option Z;
  total_duration : option Z
}.

End WorkoutSession.

Module ExerciseSet.
Record t : Type := mk {
  id : Z;
  workout_session_id : Z;
  exercise_name : string;
  weight : float;
  reps : Z;
  set_number : Z
}.
End ExerciseSet.

Module BodyWeightLog.
Record t : Type := mk {
  id : Z;
  user_id : Z;
  date : Z;
  weight : float;
  created_at : Z
}.
End BodyWeightLog.

(** ** The database and the SQLAlchemy session

    Dates are day ordinals and timestamps are seconds, both in [Z].  The
    user table is a finite map from primary keys; the log tables are lists of
    rows in insertion order.  The one constraint a request can violate at
    commit time, a NaN in a Float column declared [nullable=False], is
    modelled by [commit_not_null] and the handlers of module [Checked]
    below. *)

Record Db : Type := mk_db {
  users : gmap Z User.t;
  food_logs : list FoodLog.t;
  workout_sessions : list WorkoutSession.t;
  exercise_sets : list ExerciseSet.t;
  body_weight_logs : list BodyWeightLog.t
}.

Definition with_users (f : gmap Z User.t → gmap Z User.t) (db : Db) : Db :=
  mk_db (f (users db)) (food_logs db) (workout_sessions db)
        (exercise_sets db) (body_weight_logs db).
Definition with_food_logs (f : list FoodLog.t → list FoodLog.t) (db : Db) : Db :=
  mk_db (users db) (f (food_logs db)) (workout_sessions db)
        (exercise_sets db) (body_weight_logs db).
Definition with_workout_sessions
    (f : list WorkoutSession.t → list WorkoutSession.t) (db : Db) : Db :=
  mk_db (users db) (food_logs db) (f (workout_sessions db))
        (exercise_sets db) (body_weight_logs db).
Definition with_exercise_sets
    (f : list ExerciseSet.t → list ExerciseSet.t) (db : Db) : Db :=
  mk_db (users db) (food_logs db) (workout_sessions db)
        (f (exercise_sets db)) (body_weight_logs db).
Definition with_body_weight_logs
    (f : list BodyWeightLog.t → list BodyWeightLog.t) (db : Db) : Db :=
  mk_db (users db) (food_logs db) (workout_sessions db)
        (exercise_sets db) (f (body_weight_logs db)).

(** The next primary key of a table: one more than the largest one in use. *)
Definition next_id (ids : list Z) : Z := (1 + foldr Z.max 0 ids)%Z.

Inductive flash_msg : Type :=
| EmailAlreadyRegistered
| RegistrationSuccessful
| FoodLogged
| WeightUpdated (weight_change : float)
| WeightLogged
| WeightEntryDeleted
| SettingsUpdated (macros : Macros.t).

(** What a request works on.  [pending] is the session's view of the
    database, with the changes of the current unit of work; [committed] is
    what the database holds; [history] lists every committed state, newest
    first.  [macro_calls] is ghost state: the users [calculate_user_macros]
    has been called on, newest first. *)
Record World : Type := mk_world {
  pending : Db;
  committed : Db;
  history : list Db;
  macro_calls : list Z;
  flashes : list flash_msg
}.

Definition world_of (db : Db) : World := mk_world db db [] [] [].

(** The monad of the route handlers: state passing, and an exception stops
    the computation and keeps the state reached. *)
Definition M (A : Type) : Type := World → result A * World.

Definition ret {A} (a : A) : M A := λ w, (Ok a, w).
Definition raise {A} (e : exn) : M A := λ w, (Raise e, w).
Definition bind {A B} (m : M A) (k : A → M B) : M B :=
  λ w, match m w with
       | (Ok a, w') => k a w'
       | (Raise e, w') => (Raise e, w')
       end.
Definition lift {A} (r : result A) : M A := λ w, (r, w).

Notation "'do' x <- m ; k" := (bind m (λ x, k))
  (at level 10, x name, m at level 100, k at level 200).
Notation "m ;; k" := (bind m (λ _, k))
  (at level 100, k at level 200, right associativity).

Definition query {A} (f : Db → A) : M A := λ w, (Ok (f (pending w)), w).
Definition modify (f : Db → Db) : M unit :=
  λ w, (Ok tt, mk_world (f (pending w)) (committed w) (history w)
                        (macro_calls w) (flashes w)).
Definition flash (msg : flash_msg) : M unit :=
  λ w, (Ok tt, mk_world (pending w) (committed w) (history w)
                        (macro_calls w) (msg :: flashes w)).
Definition note_macro_call (uid : Z) : M unit :=
  λ w, (Ok tt, mk_world (pending w) (committed w) (history w)
                        (uid :: macro_calls w) (flashes w)).

(** [db.session.commit()] of a unit of work the database accepts; a unit
    of work that may write a NaN into a NOT NULL column goes through
    [commit_not_null] below. *)
Definition commit : M unit :=
  λ w, (Ok tt, mk_world (pending w) (pending w) (pending w :: history w)
                        (macro_calls w) (flashes w)).

(** The end of a request: the session is removed, so what was not committed
    is rolled back. *)
Definition teardown (w : World) : World :=
  mk_world (committed w) (committed w) (history w) (macro_calls w) (flashes w).

Definition run_request {A} (handler : M A) (w : World) : result A * World :=
  let '(r, w') := handler w in (r, teardown w').

(** A user object of the session, by primary key. *)
Definition get_user (uid : Z) : M User.t :=
  do users <- query users;
  match users !! uid with
  | Some u => ret u
  | None => raise AttributeError
  end.

(** ** calculate_user_macros, with its commit (lines 306-361) *)

Definition calculate_user_macros (uid : Z) : M Macros.t :=
  note_macro_call uid ;;
  do user <- get_user uid;
  do user' <- lift (assign_goals user);
  modify (with_users (insert uid user')) ;;
  commit ;;
  lift (macros_dict user).

(** ** Route handlers *)

Inductive response : Type :=
| Redirect (endpoint : string)
| Render (template : string)
| Json (status : string) (id : Z)
| JsonError (message : string) (code : Z).

Record Env : Type := mk_env {
  today : Z;
  now : Z
}.

Module RegisterForm.
Record t : Type := mk {
  name : string;
  email : string;
  password : string;
  age : Z;
  gender : string;
  height : float;
  weight : float;
  activity_level : string;
  goal : string
}.
End RegisterForm.

Module FoodForm.
Record t : Type := mk {
  name : string;
  calories : float;
  protein : float;
  carbs : float;
  fats : float
}.
End FoodForm.

(** What [validate_on_submit] lets through on /food-tracker: the food form is
    tried first, then the body weight form; anything else renders the page. *)
Inductive food_tracker_request : Type :=
| FoodSubmitted (food_form : FoodForm.t)
| WeightSubmitted (weight : float)
| NothingSubmitted.

Section Routes.
(** werkzeug's password hashing *)
Variable generate_password_hash : string → string.
Variable env : Env.
Open Scope float_scope.

Definition user_by_email (e : string) (db : Db) : option User.t :=
  head (filter (λ u, User.email u = e) (map snd (map_to_list (users db)))).

(** /register, lines 426-460, for a form whose height and weight the
    database accepts ([Checked.register] has the other case); [form] is
    [None] unless the form validated on submit.  The new row gets the
    column defaults of the four goals.  [login_user] only touches the
    browser session and is left out. *)
Definition register (current_user : option Z) (form : option RegisterForm.t)
    : M response :=
  match current_user with
  | Some _ => ret (Redirect "dashboard")
  | None =>
      match form with
      | None => ret (Render "register.html")
      | Some form =>
          do existing_user <- query (user_by_email (RegisterForm.email form));
          match existing_user with
          | Some _ =>
              flash EmailAlreadyRegistered ;;
              ret (Render "register.html")
          | None =>
              do uid <- query (λ db,
                          next_id (map fst (map_to_list (users db))));
              let new_user :=
                User.mk uid (RegisterForm.name form) (RegisterForm.email form)
                  (generate_password_hash (RegisterForm.password form))
                  (RegisterForm.height form) (RegisterForm.weight form)
                  false (RegisterForm.age form) (RegisterForm.gender form)
                  (RegisterForm.activity_level form) (RegisterForm.goal form)
                  2000 150 200 65 in
              modify (with_users (insert uid new_user)) ;;
              commit ;;
              calculate_user_macros uid ;;
              flash RegistrationSuccessful ;;
              ret (Redirect "dashboard")
          end
      end
  end.

(** /food-tracker, lines 486-534, for submitted numbers the database
    accepts ([Checked.food_tracker] has the other case) *)
Definition food_tracker (current_user : Z) (req : food_tracker_request)
    : M response :=
  match req with
  | FoodSubmitted food_form =>
      do fid <- query (λ db, next_id (map FoodLog.id (food_logs db)));
      let new_food :=
        FoodLog.mk fid current_user (today env) (FoodForm.name food_form)
          (FoodForm.calories food_form) (FoodForm.protein food_form)
          (FoodForm.carbs food_form) (FoodForm.fats food_form) (now env) in
      modify (with_food_logs (λ l, l ++ [new_food])) ;;
      commit ;;
      flash FoodLogged ;;
      ret (Redirect "food_tracker")
  | WeightSubmitted weight =>
      do wid <- query (λ db,
                  next_id (map BodyWeightLog.id (body_weight_logs db)));
      let new_weight :=
        BodyWeightLog.mk wid current_user (today env) weight (now env) in
      modify (with_body_weight_logs (λ l, l ++ [new_weight])) ;;
      do user <- get_user current_user;
      let old_weight := User.weight user in
      modify (with_users (insert current_user (User.set_weight user weight))) ;;
      commit ;;
      calculate_user_macros current_user ;;
      let weight_change := weight - old_weight in
      (if 0.1 <? abs weight_change
       then flash (WeightUpdated weight_change)
       else flash WeightLogged) ;;
      ret (Redirect "food_tracker")
  | NothingSubmitted => ret (Render "food_tracker.html")
  end.

(** /delete-weight/<weight_id>, lines 550-562; the redirect goes to the
    referrer when there is one. *)
Definition delete_weight (current_user : Z) (weight_id : Z) : M response :=
  do weight_log <- query (λ db,
      head (filter (λ l, BodyWeightLog.id l = weight_id)
                   (body_weight_logs db)));
  match weight_log with
  | None => raise NotFound
  | Some weight_log =>
      (if decide (BodyWeightLog.user_id weight_log = current_user)
       then
         modify (with_body_weight_logs
                   (filter (λ l, BodyWeightLog.id l ≠ weight_id))) ;;
         commit ;;
         flash WeightEntryDeleted
       else ret tt) ;;
      ret (Redirect "food_tracker")
  end.

(** /start-workout, lines 569-578 *)
Definition start_workout (current_user : Z) : M response :=
  do sid <- query (λ db,
              next_id (map WorkoutSession.id (workout_sessions db)));
  let new_session :=
    WorkoutSession.mk sid current_user (today env) (now env) None None in
  modify (with_workout_sessions (λ l, l ++ [new_session])) ;;
  commit ;;
  ret (Json "started" sid).

(** /add-exercise, lines 580-600, for a weight the database accepts
    ([Checked.add_exercise] has the other case) *)
Definition add_exercise (current_user : Z) (session_id : Z)
    (exercise_name : string) (weight : float) (reps set_number : Z)
    : M response :=
  do eid <- query (λ db, next_id (map ExerciseSet.id (exercise_sets db)));
  let new_set :=
    ExerciseSet.mk eid session_id exercise_name weight reps set_number in
  modify (with_exercise_sets (λ l, l ++ [new_set])) ;;
  commit ;;
  ret (Json "success" eid).


(** /settings, lines 653-666; [form] is [None] on a GET request. *)
Definition settings (current_user : Z)
    (form : option (float * string * string)) : M response :=
  match form with
  | Some (weight, activity_level, goal) =>
      do user <- get_user current_user;
      modify (with_users (insert current_user
                (User.set_settings user weight activity_level goal))) ;;
      do macros <- calculate_user_macros current_user;
      flash (SettingsUpdated macros) ;;
      ret (Redirect "settings")
  | None => ret (Render "settings.html")
  end.

End Routes.

(** ** The NOT NULL Float columns (lines 40-41, 66-69, 92, 103)

    sqlite binds a NaN as NULL, so the flush of a row that holds a NaN in a
    Float column declared [nullable=False] violates the constraint:
    [db.session.commit()] raises IntegrityError and nothing is written.  The
    columns are User.height and User.weight, the four macros of FoodLog,
    ExerciseSet.weight and BodyWeightLog.weight; the four goals of User are
    nullable.  The wtforms FloatField and Python's json both read the text
    nan, so such a value reaches the commits of lines 452, 502, 515 and
    598. *)

Definition storable (values : list float) : bool :=
  forallb (λ x, negb (PrimFloat.is_nan x)) values.

(** [db.session.commit()] of a unit of work that writes [values] into
    NOT NULL Float columns. *)
Definition commit_not_null (values : list float) : M unit :=
  if storable values then commit else raise IntegrityError.

(** The three handlers whose commit writes floats of the request into
    NOT NULL columns, with that constraint.  On values the database accepts
    they are the handlers of the same name above. *)
Module Checked.
Section Routes.
Variable generate_password_hash : string → string.
Variable env : Env.
Open Scope float_scope.

(** /register, lines 426-460 *)
Definition register (current_user : option Z) (form : option RegisterForm.t)
    : M response :=
  match current_user with
  | Some _ => ret (Redirect "dashboard")
  | None =>
      match form with
      | None => ret (Render "register.html")
      | Some form =>
          do existing_user <- query (user_by_email (RegisterForm.email form));
          match existing_user with
          | Some _ =>
              flash EmailAlreadyRegistered ;;
              ret (Render "register.html")
          | None =>
              do uid <- query (λ db,
                          next_id (map fst (map_to_list (users db))));
              let new_user :=
                User.mk uid (RegisterForm.name form) (RegisterForm.email form)
                  (generate_password_hash (RegisterForm.password form))
                  (RegisterForm.height form) (RegisterForm.weight form)
                  false (RegisterForm.age form) (RegisterForm.gender form)
                  (RegisterForm.activity_level form) (RegisterForm.goal form)
                  2000 150 200 65 in
              modify (with_users (insert uid new_user)) ;;
              commit_not_null [User.height new_user; User.weight new_user] ;;
              calculate_user_macros uid ;;
              flash RegistrationSuccessful ;;
              ret (Redirect "dashboard")
          end
      end
  end.

(** /food-tracker, lines 486-534 *)
Definition food_tracker (current_user : Z) (req : food_tracker_request)
    : M response :=
  match req with
  | FoodSubmitted food_form =>
      do fid <- query (λ db, next_id (map FoodLog.id (food_logs db)));
      let new_food :=
        FoodLog.mk fid current_user (today env) (FoodForm.name food_form)
          (FoodForm.calories food_form) (FoodForm.protein food_form)
          (FoodForm.carbs food_form) (FoodForm.fats food_form) (now env) in
      modify (with_food_logs (λ l, l ++ [new_food])) ;;
      commit_not_null [FoodLog.calories new_food; FoodLog.protein new_food;
                       FoodLog.carbs new_food; FoodLog.fats new_food] ;;
      flash FoodLogged ;;
      ret (Redirect "food_tracker")
  | WeightSubmitted weight =>
      do wid <- query (λ db,
                  next_id (map BodyWeightLog.id (body_weight_logs db)));
      let new_weight :=
        BodyWeightLog.mk wid current_user (today env) weight (now env) in
      modify (with_body_weight_logs (λ l, l ++ [new_weight])) ;;
      do user <- get_user current_user;
      let old_weight := User.weight user in
      modify (with_users (insert current_user (User.set_weight user weight))) ;;
      commit_not_null [BodyWeightLog.weight new_weight;
                       User.weight (User.set_weight user weight)] ;;
      calculate_user_macros current_user ;;
      let weight_change := weight - old_weight in
      (if 0.1 <? abs weight_change
       then flash (WeightUpdated weight_change)
       else flash WeightLogged) ;;
      ret (Redirect "food_tracker")
  | NothingSubmitted => ret (Render "food_tracker.html")
  end.

(** /add-exercise, lines 580-600 *)
Definition add_exercise (current_user : Z) (session_id : Z)
    (exercise_name : string) (weight : float) (reps set_number : Z)
    : M response :=
  do eid <- query (λ db, next_id (map ExerciseSet.id (exercise_sets db)));
  let new_set :=
    ExerciseSet.mk eid session_id exercise_name weight reps set_number in
  modify (with_exercise_sets (λ l, l ++ [new_set])) ;;
  commit_not_null [ExerciseSet.weight new_set] ;;
  ret (Json "success" eid).

End Routes.
End Checked.

(** ** Python values used by the recommendation adapter *)

(** The result monad, for code inside one function. *)
Definition rbind {A B} (r : result A) (k : A → result B) : result B :=
  match r with Ok a => k a | Raise e => Raise e end.
Notation "'let*' x := r 'in' k" := (rbind r (λ x, k))
  (at level 10, x name, r at level 100, k at level 200).

(** A Python number: the averages are the integer 0 or a float. *)
Inductive number : Type :=
| PyInt (n : Z)
| PyFloat (x : float).

(** What [json.loads] returns; [JObj] lists the items of a dict, whose keys
    are distinct. *)
Inductive json : Type :=
| JNull
| JBool (b : bool)
| JInt (n : Z)
| JFloat (x : float)
| JStr (s : string)
| JArr (items : list json)
| JObj (members : list (string * json)).

Section PythonBuiltins.
Open Scope float_scope.

Definition add_float (a : number) (x : float) : number :=
  match a with
  | PyInt n => PyFloat (Py.of_int n + x)
  | PyFloat y => PyFloat (y + x)
  end.

(** [sum] over floats: additions from the integer 0, left to right.
    (CPython from 3.12 on carries a compensation term through the additions,
    which can change the last bits of a sum; nothing below depends on
    them.) *)
Definition py_sum (xs : list float) : number := foldl add_float (PyInt 0) xs.

(** [a / n] for an integer [n] *)
Definition py_truediv (a : number) (n : Z) : result number :=
  if decide (n = 0%Z) then Raise ZeroDivisionError
  else match a with
       | PyInt m => Ok (PyFloat (Py.of_int m / Py.of_int n))
       | PyFloat x => Ok (PyFloat (x / Py.of_int n))
       end.

(** [int(a)] *)
Definition py_int (a : number) : result Z :=
  match a with
  | PyInt n => Ok n
  | PyFloat x => Py.int x
  end.

(** Truth value of a parsed JSON value. *)
Definition py_bool (v : json) : bool :=
  match v with
  | JNull => false
  | JBool b => b
  | JInt n => negb (n =? 0)%Z
  | JFloat x => negb (x =? 0)
  | JStr s => negb (String.eqb s EmptyString)
  | JArr items => match items with [] => false | _ => true end
  | JObj members => match members with [] => false | _ => true end
  end.

(** [len(v)] *)
Definition py_len (v : json) : result Z :=
  match v with
  | JStr s => Ok (Z.of_nat (String.length s))
  | JArr items => Ok (Z.of_nat (length items))
  | JObj members => Ok (Z.of_nat (length members))
  | _ => Raise TypeError
  end.

(** [v[:3]]: strings and lists can be sliced, a dict cannot. *)
Definition py_slice3 (v : json) : result json :=
  match v with
  | JStr s => Ok (JStr (String.substring 0 3 s))
  | JArr items => Ok (JArr (take 3 items))
  | _ => Raise TypeError
  end.

Fixpoint assoc (key : string) (members : list (string * json)) : option json :=
  match members with
  | [] => None
  | (k, v) :: rest => if String.eqb k key then Some v else assoc key rest
  end.

(** [result.get(key, dflt)]: only a dict has the method. *)
Definition dict_get (v : json) (key : string) (dflt : json) : result json :=
  match v with
  | JObj members => Ok (default dflt (assoc key members))
  | _ => Raise AttributeError
  end.

(** Strings are sequences of bytes here, while [len] and slicing of a Python
    string count code points: the two agree on ASCII text.

    ASCII white space, as [str.strip] sees it. *)
Definition is_whitespace (c : Ascii.ascii) : bool :=
  let n := Ascii.nat_of_ascii c in
  ((9 <=? n)%nat && (n <=? 13)%nat) || ((28 <=? n)%nat && (n <=? 32)%nat).

Fixpoint py_lstrip (s : string) : string :=
  match s with
  | String c s' => if is_whitespace c then py_lstrip s' else s
  | EmptyString => s
  end.

Definition py_strip (s : string) : string :=
  String.rev (py_lstrip (String.rev (py_lstrip s))).

(** [sub in s] *)
Definition py_contains (sub s : string) : bool :=
  match String.index 0 sub s with Some _ => true | None => false end.

Fixpoint py_split_go (fuel : nat) (sep s : string) : list string :=
  match fuel with
  | O => [s]
  | S fuel =>
      match String.index 0 sep s with
      | None => [s]
      | Some i =>
          String.substring 0 i s ::
          py_split_go fuel sep
            (String.substring (i + String.length sep)
                       (String.length s - i - String.length sep) s)
      end
  end.

(** [s.split(sep)] for a separator that is not empty. *)
Definition py_split (sep s : string) : list string :=
  py_split_go (String.length s) sep s.

(** [l[i]] *)
Definition py_item {A} (l : list A) (i : nat) : result A :=
  match l !! i with Some x => Ok x | None => Raise IndexError end.

End PythonBuiltins.

(** ** The recommendation adapter (lines 230-302) *)

(** The values interpolated into the prompt. *)
Module Prompt.
Record t : Type := mk {
  age : Z;
  gender : string;
  height : float;
  weight : float;
  calorie_goal : float;
  protein_goal : float;
  avg_calories : Z;
  avg_protein : Z;
  workout_count : Z
}.
End Prompt.

Definition fallback : json :=
  JArr [JStr "Track your daily nutrition consistently.";
        JStr "Maintain regular workout schedule.";
        JStr "Get 7-8 hours of sleep for recovery."].

Section Recommendations.
(** The text-generation service, lines 267-276: the prompt goes in and
    either the text of the response comes out or an exception does. *)
Variable generate_content : Prompt.t → result string.
(** [json.loads] *)
Variable json_loads : string → result json.

Variable db : Db.
Variable today : Z.
Variable user : User.t.

(** [timedelta()], in days *)
Definition timedelta : Z := 0.

Definition week_ago : Z := today - timedelta.

Definition recent_foods : list FoodLog.t :=
  filter (λ f, FoodLog.user_id f = User.id user ∧ (week_ago ≤ FoodLog.date f)%Z)
         (food_logs db).

Definition recent_workouts : list WorkoutSession.t :=
  filter (λ s, WorkoutSession.user_id s = User.id user
               ∧ (week_ago ≤ WorkoutSession.date s)%Z)
         (workout_sessions db).

Definition days_count : Z :=
  Z.max 1 (Z.of_nat (size (list_to_set (map FoodLog.date recent_foods) : gset Z))).

(** Lines 245-251 *)
Definition avg_calories : result number :=
  match recent_foods with
  | _ :: _ => py_truediv (py_sum (map FoodLog.calories recent_foods)) days_count
  | [] => Ok (PyInt 0)
  end.

Definition avg_protein : result number :=
  match recent_foods with
  | _ :: _ => py_truediv (py_sum (map FoodLog.protein recent_foods)) days_count
  | [] => Ok (PyInt 0)
  end.

Definition workout_count : Z := Z.of_nat (length recent_workouts).

(** Lines 232-264: everything up to the prompt, which is built before the
    [try] block is entered. *)
Definition build_prompt : result Prompt.t :=
  let* avg_calories := avg_calories in
  let* avg_protein := avg_protein in
  let* cal := py_int avg_calories in
  let* prot := py_int avg_protein in
  Ok (Prompt.mk (User.age user) (User.gender user) (User.height user)
        (User.weight user) (User.calorie_goal user) (User.protein_goal user)
        cal prot workout_count).

(** Lines 278-283 *)
Definition strip_fences (text : string) : result string :=
  let text := py_strip text in
  if py_contains "```json" text then
    let* after := py_item (py_split "```json" text) 1 in
    let* inside := py_item (py_split "```" after) 0 in
    Ok (py_strip inside)
  else if py_contains "```" text then
    let* after := py_item (py_split "```" text) 1 in
    let* inside := py_item (py_split "```" after) 0 in
    Ok (py_strip inside)
  else Ok text.

(** Lines 285-295 *)
Definition pick_recommendations (parsed : json) : result json :=
  let* recommendations := dict_get parsed "recommendations" (JArr []) in
  if py_bool recommendations then
    let* n := py_len recommendations in
    if (3 <=? n)%Z then py_slice3 recommendations else Ok fallback
  else Ok fallback.

(** The body of the [try] block, lines 267-295 *)
Definition try_body (prompt : Prompt.t) : result json :=
  let* text := generate_content prompt in
  let* text := strip_fences text in
  let* parsed := json_loads text in
  pick_recommendations parsed.

Definition get_ai_recommendations : result json :=
  let* prompt := build_prompt in
  match try_body prompt with
  | Ok recommendations => Ok recommendations
  | Raise _ => Ok fallback
  end.

End Recommendations.

(** ** The calculator in the words of the specification

    BMR by the Mifflin-St Jeor formula, the activity multiplier and the goal
    adjustment as case distinctions with their defaults, and the macro
    formulas.  These follow the specification; the theorems below compare
    them with the code. *)

Section SpecFormulas.
Open Scope float_scope.

Definition spec_bmr (u : User.t) : float :=
  if decide (User.gender u = "male")
  then 10 * User.weight u + 6.25 * User.height u - Py.of_int (5 * User.age u) + 5
  else 10 * User.weight u + 6.25 * User.height u - Py.of_int (5 * User.age u) - 161.

Definition spec_activity_multiplier (activity_level : string) : float :=
  if decide (activity_level = "sedentary") then 1.2
  else if decide (activity_level = "light") then 1.375
  else if decide (activity_level = "moderate") then 1.55
  else if decide (activity_level = "active") then 1.725
  else if decide (activity_level = "very_active") then 1.9
  else 1.55.

Definition spec_goal_adjustment (goal : string) : Z :=
  if decide (goal = "lose") then (-500)%Z
  else if decide (goal = "maintain") then 0%Z
  else if decide (goal = "gain") then 300%Z
  else 0%Z.

Definition spec_tdee (u : User.t) : float :=
  spec_bmr u * spec_activity_multiplier (User.activity_level u).

Definition spec_calorie_goal (u : User.t) : float :=
  spec_tdee u + Py.of_int (spec_goal_adjustment (User.goal u)).

Definition spec_protein_multiplier (goal : string) : float :=
  if decide (goal = "gain") then 2.2
  else if decide (goal = "lose") then 2.4
  else 2.0.

Definition spec_protein_goal (u : User.t) : float :=
  User.weight u * spec_protein_multiplier (User.goal u).

Definition spec_fats_goal (u : User.t) : float :=
  (spec_calorie_goal u * 0.25) / 9.

Definition spec_carbs_goal (u : User.t) : float :=
  (spec_calorie_goal u - spec_protein_goal u * 4 - spec_fats_goal u * 9) / 4.

End SpecFormulas.

(** ** Sample data *)

Section Samples.
Open Scope float_scope.

(** The default admin of lines 674-685: male, 30 years, 175 cm, 70 kg,
    moderate activity, goal maintain; the goal columns hold their column
    defaults. *)
Definition admin_profile : User.t :=
  User.mk 1 "Admin" "admin@fitness.com" "hash" 175 70 true 30 "male"
          "moderate" "maintain" 2000 150 200 65.

(** Not male, 25 years, 160 cm, 60 kg, sedentary, goal lose. *)
Definition lose_profile : User.t :=
  User.mk 2 "Beth" "beth@fitness.com" "hash" 160 60 false 25 "female"
          "sedentary" "lose" 2000 150 200 65.

(** Not male, 80 years, 150 cm, 60 kg, sedentary, goal lose: protein and
    fat calories exceed the calorie goal. *)
Definition frail_profile : User.t :=
  User.mk 3 "Cleo" "cleo@fitness.com" "hash" 150 60 false 80 "female"
          "sedentary" "lose" 2000 150 200 65.

Definition sample_db : Db :=
  mk_db (<[1%Z := admin_profile]> (<[2%Z := lose_profile]>
         (<[3%Z := frail_profile]> ∅))) [] [] [] [].

Definition sample_env : Env := mk_env 739000 1000.
End Samples.

(** ** The aggregation in the words of the specification *)

Section SpecAggregation.
Open Scope float_scope.

(** The sum over the entries. *)
Definition float_sum (xs : list float) : float := foldl PrimFloat.add 0 xs.

(** The number of distinct days with at least one entry. *)
Definition distinct_days (foods : list FoodLog.t) : nat :=
  length (remove_dups (map FoodLog.date foods)).

(** A list of exactly three strings. *)
Definition three_strings (v : json) : bool :=
  match v with
  | JArr [JStr _; JStr _; JStr _] => true
  | _ => false
  end.
End SpecAggregation.

(** ** The adapter's result in the words of the specification

    [reply] is the service's reply parsed as JSON, or the exception raised
    by the invocation, the text extraction or the parser.  A list of at
    least three recommendations gives its first three items; every failure
    shape gives the fallback triple.  A string of at least three characters
    under the key gives its first three characters, which is what slicing
    does to a string. *)

Definition spec_recommendations (reply : result json) : json :=
  match reply with
  | Ok (JObj members) =>
      match assoc "recommendations" members with
      | Some (JArr items) =>
          if decide (3 ≤ length items) then JArr (take 3 items) else fallback
      | Some (JStr s) =>
          if decide (3 ≤ String.length s) then JStr (String.substring 0 3 s)
          else fallback
      | _ => fallback
      end
  | _ => fallback
  end.

(** The service's reply to a prompt, parsed. *)
Definition parsed_reply (generate_content : Prompt.t → result string)
    (json_loads : string → result json) (prompt : Prompt.t) : result json :=
  let* text := generate_content prompt in
  let* cleaned := strip_fences text in
  json_loads cleaned.

(** ** Sample service behaviours *)

Section ServiceSamples.
Open Scope float_scope.
Open Scope string_scope.

Definition dquote : string := String "034"%char EmptyString.

(** The reply [{"recommendations": [1, 2, 3]}]: well-formed JSON whose
    three items are numbers. *)
Definition numbers_reply : string :=
  "{" ++ dquote ++ "recommendations" ++ dquote ++ ": [1, 2, 3]}".

(** The reply [{"recommendations": ["Eat.", "Lift.", "Sleep.", "Walk."]}] *)
Definition tips_reply : string :=
  "{" ++ dquote ++ "recommendations" ++ dquote ++ ": ["
  ++ dquote ++ "Eat." ++ dquote ++ ", " ++ dquote ++ "Lift." ++ dquote ++ ", "
  ++ dquote ++ "Sleep." ++ dquote ++ ", " ++ dquote ++ "Walk." ++ dquote ++ "]}".

(** [json.loads] on the two replies above; everything else is treated as
    not being JSON. *)
Definition sample_json_loads (text : string) : result json :=
  if decide (text = numbers_reply)
  then Ok (JObj [("recommendations", JArr [JInt 1; JInt 2; JInt 3])])
  else if decide (text = tips_reply)
  then Ok (JObj [("recommendations",
                  JArr [JStr "Eat."; JStr "Lift."; JStr "Sleep."; JStr "Walk."])])
  else Raise JSONDecodeError.

Definition numbers_service (_ : Prompt.t) : result string := Ok numbers_reply.

(** The same reply inside a fenced block labelled json. *)
Definition fenced_tips_service (_ : Prompt.t) : result string :=
  Ok ("Here you go:
```json
" ++ tips_reply ++ "
```
").

Definition failing_service (_ : Prompt.t) : result string := Raise ServiceError.

(** Two meals on day 739000 and one the day before, and two workouts on
    day 739000, all of user 1. *)
Definition logs_db : Db :=
  mk_db (users sample_db)
    [FoodLog.mk 1 1 738999 "Rice" 300 6 60 1 10;
     FoodLog.mk 2 1 739000 "Eggs" 150 12 1 10 20;
     FoodLog.mk 3 1 739000 "Oats" 350 13 55 7 30;
     FoodLog.mk 4 2 739000 "Soup" 200 8 20 5 40]
    [WorkoutSession.mk 1 1 739000 100 (Some 200%Z) (Some 100%Z);
     WorkoutSession.mk 2 1 739000 300 None None;
     WorkoutSession.mk 3 1 738990 50 None None]
    [] [].

(** A meal whose calories overflowed to infinity. *)
Definition overflow_db : Db :=
  mk_db (users sample_db)
    [FoodLog.mk 1 1 739000 "Feast" infinity 10 10 10 10] [] [] [].
End ServiceSamples.

(** ** Sample states of the database *)

Section StateSamples.
Open Scope float_scope.

(** The admin profile with the goals of its 70 kg. *)
Definition settled_admin : User.t :=
  User.set_goals admin_profile 2556 140 339.2 71.

Definition settled_db : Db := mk_db {[ 1%Z := settled_admin ]} [] [] [] [].

(** The four goal columns of a user, if the user exists. *)
Definition goal_fields (db : Db) (uid : Z) : option (float * float * float * float) :=
  User.goals <$> users db !! uid.

Definition sample_form : RegisterForm.t :=
  RegisterForm.mk "Dana" "dana@fitness.com" "secret" 40 "female" 165 55
                  "light" "gain".
End StateSamples.

(** ** A sample gym *)

Section GymSamples.
Open Scope float_scope.

(** Users 1 and 2 with one open workout session each, on day 739000; two
    sets in the session of user 1 and one in the session of user 2; the food
    logs of [logs_db]. *)
Definition gym_db : Db :=
  mk_db (<[1%Z := settled_admin]> (<[2%Z := lose_profile]> ∅))
    (food_logs logs_db)
    [WorkoutSession.mk 1 1 739000 100 None None;
     WorkoutSession.mk 2 2 739000 300 None None]
    [ExerciseSet.mk 1 1 "Squat" 100 5 1;
     ExerciseSet.mk 2 1 "Squat" 100 5 2;
     ExerciseSet.mk 3 2 "Row" 40 8 1]
    [].

Definition eggs_form : FoodForm.t := FoodForm.mk "Eggs" 150 12 1 10.

(** A reply with a preamble and a fence labelled json. *)
Definition fenced_tips_text : string :=
  "Here you go:
```json
" +:+ tips_reply +:+ "
```
".

(** A reply in a fence without a label. *)
Definition fenced_numbers_text : string :=
  "```
" +:+ numbers_reply +:+ "
```".
End GymSamples.

(** ** The rows and states the handlers create *)

Section CreatedRows.
Variable generate_password_hash : string → string.
Variable env : Env.
Open Scope float_scope.

(** The row a weight submission adds. *)
Definition weight_row (w : World) (uid : Z) (weight : float) : BodyWeightLog.t :=
  BodyWeightLog.mk (next_id (map BodyWeightLog.id (body_weight_logs (pending w))))
                   uid (today env) weight (now env).

(** The state of the first commit of a weight submission. *)
Definition weight_logged (w : World) (uid : Z) (u : User.t) (weight : float) : Db :=
  with_users (insert uid (User.set_weight u weight))
    (with_body_weight_logs (λ l, l ++ [weight_row w uid weight]) (pending w)).

(** The row a food submission adds. *)
Definition logged_food (w : World) (uid : Z) (food_form : FoodForm.t) : FoodLog.t :=
  FoodLog.mk (next_id (map FoodLog.id (food_logs (pending w)))) uid (today env)
    (FoodForm.name food_form) (FoodForm.calories food_form)
    (FoodForm.protein food_form) (FoodForm.carbs food_form)
    (FoodForm.fats food_form) (now env).

Definition new_user_id (w : World) : Z :=
  next_id (map fst (map_to_list (users (pending w)))).

(** The user a registration adds, with the column defaults of the goals. *)
Definition registered_user (w : World) (form : RegisterForm.t) : User.t :=
  User.mk (new_user_id w) (RegisterForm.name form) (RegisterForm.email form)
    (generate_password_hash (RegisterForm.password form))
    (RegisterForm.height form) (RegisterForm.weight form)
    false (RegisterForm.age form) (RegisterForm.gender form)
    (RegisterForm.activity_level form) (RegisterForm.goal form)
    2000 150 200 65.
End CreatedRows.

(** ** The other route handlers

    The messages these handlers flash are returned beside the response. *)

Definition flashed : Type := list string * response.

(** What /dashboard hands to its template. *)
Module Dashboard.
Record t : Type := mk {
  food_logs : list FoodLog.t;
  exercise_logs : list (string * float * Z * Z);
  total_calories : number;
  total_protein : number;
  total_carbs : number;
  total_fats : number;
  calorie_goal : float;
  protein_goal : float;
  carbs_goal : float;
  fats_goal : float;
  today : Z
}.
End Dashboard.

Section MoreRoutes.
Variable generate_password_hash : string → string.
Variable generate_content : Prompt.t → result string.
Variable json_loads : string → result json.
Variable env : Env.
Open Scope float_scope.

(** [session.exercise_sets]: the sets of a workout session. *)
Definition sets_of (db : Db) (session : WorkoutSession.t) : list ExerciseSet.t :=
  filter (λ e, ExerciseSet.workout_session_id e = WorkoutSession.id session)
         (exercise_sets db).


(** / and /dashboard, lines 371-406 *)
Definition dashboard (current_user : Z) : M Dashboard.t :=
  do food_logs <- query (λ db,
      filter (λ l, FoodLog.user_id l = current_user
                   ∧ FoodLog.date l = today env) (food_logs db));
  let total_calories := py_sum (map FoodLog.calories food_logs) in
  let total_protein := py_sum (map FoodLog.protein food_logs) in
  let total_carbs := py_sum (map FoodLog.carbs food_logs) in
  let total_fats := py_sum (map FoodLog.fats food_logs) in
  do workout_sessions <- query (λ db,
      filter (λ s, WorkoutSession.user_id s = current_user
                   ∧ WorkoutSession.date s = today env) (workout_sessions db));
  do exercise_logs <- query (λ db,
      mjoin (map (λ session,
                map (λ exercise_set,
                       (ExerciseSet.exercise_name exercise_set,
                        ExerciseSet.weight exercise_set,
                        ExerciseSet.reps exercise_set,
                        ExerciseSet.set_number exercise_set))
                    (sets_of db session))
              workout_sessions));
  do user <- get_user current_user;
  ret (Dashboard.mk food_logs exercise_logs total_calories total_protein
         total_carbs total_fats (User.calorie_goal user)
         (User.protein_goal user) (User.carbs_goal user) (User.fats_goal user)
         (today env)).

(** /delete-food/<food_id>, lines 536-548 *)
Definition delete_food (current_user : Z) (food_id : Z) : M flashed :=
  do food_log <- query (λ db,
      head (filter (λ l, FoodLog.id l = food_id) (food_logs db)));
  match food_log with
  | None => raise NotFound
  | Some food_log =>
      if decide (FoodLog.user_id food_log = current_user)
      then
        modify (with_food_logs (filter (λ l, FoodLog.id l ≠ food_id))) ;;
        commit ;;
        ret (["Food entry deleted!"], Redirect "food_tracker")
      else ret ([], Redirect "food_tracker")
  end.


(** /delete-workout-session/<session_id>, lines 633-645; the relationship
    of line 83 cascades the deletion to the sets of the session. *)
Definition delete_workout_session (current_user : Z) (session_id : Z)
    : M flashed :=
  do workout_session <- query (λ db,
      head (filter (λ s, WorkoutSession.id s = session_id)
                   (workout_sessions db)));
  match workout_session with
  | None => raise NotFound
  | Some workout_session =>
      if decide (WorkoutSession.user_id workout_session = current_user)
      then
        modify (with_exercise_sets
                  (filter (λ e, ExerciseSet.workout_session_id e ≠ session_id))) ;;
        modify (with_workout_sessions
                  (filter (λ s, WorkoutSession.id s ≠ session_id))) ;;
        commit ;;
        ret (["Workout session deleted!"], Redirect "profile_workout_history")
      else ret ([], Redirect "profile_workout_history")
  end.

(** /ai-coach, lines 647-651: the recommendations handed to the template *)
Definition ai_coach (current_user : Z) : M json :=
  do user <- get_user current_user;
  do db <- query (λ db, db);
  lift (get_ai_recommendations generate_content json_loads db (today env) user).

(** The start-up block, lines 668-688: the default admin is created unless
    a user with its email exists; the four goals get their column
    defaults. *)
Definition create_default_admin : M unit :=
  do admin_user <- query (user_by_email "admin@fitness.com");
  match admin_user with
  | Some _ => ret tt
  | None =>
      do uid <- query (λ db, next_id (map fst (map_to_list (users db))));
      let admin_user :=
        User.mk uid "Admin" "admin@fitness.com"
          (generate_password_hash "admin123") 175 70 true 30 "male"
          "moderate" "maintain" 2000 150 200 65 in
      modify (with_users (insert uid admin_user)) ;;
      commit
  end.

End MoreRoutes.

(** ** Invariants of the tables *)

(** No two users share an email (the unique constraint of line 38). *)
Definition unique_emails (db : Db) : Prop :=
  ∀ i j u v, users db !! i = Some u → users db !! j = Some v →
             User.email u = User.email v → i = j.

(** The fields the calculator reads. *)
Definition biometrics (u : User.t) : float * float * Z * string * string * string :=
  (User.weight u, User.height u, User.age u, User.gender u,
   User.activity_level u, User.goal u).

(** The columns of a profile that are not goals. *)
Definition identity_fields (u : User.t)
    : Z * string * string * string * bool :=
  (User.id u, User.name u, User.email u, User.password_hash u, User.is_admin u).

(** The admins of a users table. *)
Definition is_admin_at (db : Db) (uid : Z) : Prop :=
  User.is_admin <$> users db !! uid = Some true.

(** Every exercise set points to a workout session that exists. *)
Definition no_orphans (db : Db) : Prop :=
  ∀ e, e ∈ exercise_sets db →
       ∃ s, s ∈ workout_sessions db
            ∧ WorkoutSession.id s = ExerciseSet.workout_session_id e.

(** ** Proof automation *)

Ltac unfold_monad :=
  unfold get_user, note_macro_call, query, lift, modify, flash, commit, ret,
    raise, bind;
  cbn [pending committed history macro_calls flashes].

Ltac in_list :=
  cbn; repeat first [apply list_elem_of_here | apply list_elem_of_further].

Ltac cbn_spec :=
  cbn -[spec_bmr spec_tdee spec_calorie_goal spec_protein_goal spec_fats_goal
        spec_carbs_goal Py.of_int Py.round_to].

(** ** Facts about rounding *)

Lemma round_ok_finite x : is_ok (Py.round x) = Py.is_finite x.
Proof. unfold Py.round, Py.is_finite. by destruct (Prim2SF x). Qed.

(** Python's worked examples of [round]: ties go to the even neighbour, and
    what counts is the exact binary value of the argument. *)
Example round_examples :
  Py.round 2.5 = Ok 2%Z ∧ Py.round 3.5 = Ok 4%Z ∧ Py.round (-2.5) = Ok (-2)%Z
  ∧ Py.round 976.5 = Ok 976%Z ∧ Py.round infinity = Raise OverflowError
  ∧ Py.round nan = Raise ValueError
  ∧ Py.round_to 346.25 1 = 346.2%float ∧ Py.round_to 0.25 1 = 0.2%float
  ∧ Py.round_to 0.35 1 = 0.3%float ∧ Py.round_to 0.45 1 = 0.5%float
  ∧ Py.round_to 57.975 1 = 58%float ∧ Py.round_to (-18.04) 1 = (-18)%float.
Proof. vm_compute. repeat split; reflexivity. Qed.

(** ** The calculator against the specification's formulas *)

Lemma activity_multiplier_lookup (a : string) :
  default 1.55%float (activity_multipliers !! a) = spec_activity_multiplier a.
Proof.
  unfold activity_multipliers, spec_activity_multiplier.
  rewrite !lookup_insert, lookup_empty.
  repeat case_decide; simplify_eq; reflexivity.
Qed.

Lemma goal_adjustment_lookup (g : string) :
  default 0%Z (goal_adjustments !! g) = spec_goal_adjustment g.
Proof.
  unfold goal_adjustments, spec_goal_adjustment.
  rewrite !lookup_insert, lookup_empty.
  repeat case_decide; simplify_eq; reflexivity.
Qed.

Lemma macro_locals_spec (u : User.t) :
  macro_locals u =
  mk_locals (spec_bmr u) (spec_tdee u) (spec_calorie_goal u)
            (spec_protein_goal u) (spec_fats_goal u) (spec_carbs_goal u).
Proof.
  unfold macro_locals, spec_carbs_goal, spec_fats_goal, spec_protein_goal,
    spec_calorie_goal, spec_tdee.
  rewrite activity_multiplier_lookup, goal_adjustment_lookup.
  reflexivity.
Qed.

(** What one call does to the world, by cases on the two places where the
    function can stop. *)
Lemma calculate_user_macros_run (uid : Z) (u : User.t) (w : World) :
  users (pending w) !! uid = Some u →
  calculate_user_macros uid w =
  match assign_goals u with
  | Raise e =>
      (Raise e, mk_world (pending w) (committed w) (history w)
                         (uid :: macro_calls w) (flashes w))
  | Ok u' =>
      let db' := with_users (insert uid u') (pending w) in
      (macros_dict u,
       mk_world db' db' (db' :: history w) (uid :: macro_calls w) (flashes w))
  end.
Proof.
  intros Hu. unfold calculate_user_macros. unfold_monad. rewrite Hu.
  destruct (assign_goals u) as [u'|e]; reflexivity.
Qed.

Lemma round_spec_finite (u : User.t) :
  is_ok (Py.round (spec_bmr u)) && is_ok (Py.round (spec_tdee u))
  && is_ok (Py.round (spec_calorie_goal u))
  = Py.is_finite (spec_bmr u) && Py.is_finite (spec_tdee u)
    && Py.is_finite (spec_calorie_goal u).
Proof. by rewrite !round_ok_finite. Qed.

(** ** C1 and C2: the two worked profiles *)

Section WorkedProfiles.
Open Scope float_scope.

(** C1, as the specification states it, fails: for the profile (male, 30
    years, 175 cm, 70 kg, moderate, maintain) the calculator does not
    return BMR 1673, TDEE 2593, calories 2593, protein 140.0, carbs 346.3
    and fats 72.0. *)
Lemma C1_stated_values_refuted :
  fst (calculate_user_macros 1 (world_of sample_db))
  ≠ Ok (Macros.mk 1673 2593 2593 140 346.3 72).
Proof. vm_compute. intros H. discriminate H. Qed.

(** C1, amended: for the profile (male, 30 years, 175 cm, 70 kg, moderate,
    maintain) the unrounded BMR is 1648.75 and the unrounded TDEE is
    2555.5625; the calculator returns BMR 1649, TDEE 2556, calories 2556,
    protein 140.0, carbs 339.2 and fats 71.0, and the same rounded goal
    values are stored on the profile and committed. *)
Theorem C1_admin_profile_macros :
  l_bmr (macro_locals admin_profile) = 1648.75
  ∧ l_tdee (macro_locals admin_profile) = 2555.5625
  ∧ fst (calculate_user_macros 1 (world_of sample_db))
    = Ok (Macros.mk 1649 2556 2556 140 339.2 71)
  ∧ User.goals <$>
      users (pending (snd (calculate_user_macros 1 (world_of sample_db)))) !! 1%Z
    = Some (2556, 140, 339.2, 71)
  ∧ User.goals <$>
      users (committed (snd (calculate_user_macros 1 (world_of sample_db)))) !! 1%Z
    = Some (2556, 140, 339.2, 71).
Proof. vm_compute. repeat split; reflexivity. Qed.

(** C2, as the specification states it, fails: for the profile (not male,
    25 years, 160 cm, 60 kg, sedentary, lose) the carbs goal is not 58.0,
    and it is not computed from the rounded protein and fats values. *)
Lemma C2_stated_values_refuted :
  fst (calculate_user_macros 2 (world_of sample_db))
  ≠ Ok (Macros.mk 1314 1577 1077 144 58 29.9).
Proof. vm_compute. intros H. discriminate H. Qed.

(** C2, amended: for the profile (not male, 25 years, 160 cm, 60 kg,
    sedentary, lose) the calculator returns BMR 1314, TDEE 1577, calories
    1077, protein 144.0, fats 29.9 and carbs 57.9.  The carbs goal is
    computed from the unrounded calorie goal 1076.8 and the unrounded
    protein and fats goals, and only then rounded; computing it from the
    rounded values 1077, 144.0 and 29.9 would give 58.0 instead. *)
Theorem C2_lose_profile_macros :
  fst (calculate_user_macros 2 (world_of sample_db))
  = Ok (Macros.mk 1314 1577 1077 144 57.9 29.9)
  ∧ User.goals <$>
      users (committed (snd (calculate_user_macros 2 (world_of sample_db)))) !! 2%Z
    = Some (1077, 144, 57.9, 29.9)
  ∧ l_calorie_goal (macro_locals lose_profile) = 1076.8
  ∧ Py.round_to
      ((l_calorie_goal (macro_locals lose_profile)
        - l_protein_goal (macro_locals lose_profile) * 4
        - l_fats_goal (macro_locals lose_profile) * 9) / 4) 1 = 57.9
  ∧ Py.round_to ((1077 - 144 * 4 - 29.9 * 9) / 4) 1 = 58.
Proof. vm_compute. repeat split; reflexivity. Qed.

End WorkedProfiles.

(** ** C3 and C4: the formulas, for every profile *)

Section Formulas.
Open Scope float_scope.

(** C3: for every profile held by the session, calculate_user_macros
    computes the BMR by the Mifflin-St Jeor formula (plus 5 when the gender
    is exactly male, minus 161 otherwise), multiplies it by the activity
    multiplier (1.55 for an unrecognised level) to get the TDEE and sets
    the calorie goal to the TDEE plus the goal adjustment (0 for an
    unrecognised goal); the returned BMR, TDEE and calories are these
    values rounded to integers, and the rounded calorie goal is stored and
    committed.  The call fails only when one of the three values is not
    finite. *)
Theorem C3_bmr_tdee_calorie_goal (w : World) (uid : Z) (u : User.t) :
  users (pending w) !! uid = Some u →
  match calculate_user_macros uid w with
  | (Ok m, w') =>
      Py.round (spec_bmr u) = Ok (Macros.bmr m)
      ∧ Py.round (spec_bmr u * spec_activity_multiplier (User.activity_level u))
        = Ok (Macros.tdee m)
      ∧ Py.round (spec_bmr u * spec_activity_multiplier (User.activity_level u)
                  + Py.of_int (spec_goal_adjustment (User.goal u)))
        = Ok (Macros.calories m)
      ∧ User.calorie_goal <$> users (committed w') !! uid
        = Some (Py.of_int (Macros.calories m))
  | (Raise _, _) =>
      Py.is_finite (spec_bmr u) && Py.is_finite (spec_tdee u)
      && Py.is_finite (spec_calorie_goal u) = false
  end.
Proof.
  intros Hu. rewrite (calculate_user_macros_run uid u w Hu).
  rewrite <- round_spec_finite.
  change (spec_bmr u * spec_activity_multiplier (User.activity_level u))
    with (spec_tdee u).
  change (spec_tdee u + Py.of_int (spec_goal_adjustment (User.goal u)))
    with (spec_calorie_goal u).
  unfold assign_goals, macros_dict. rewrite macro_locals_spec.
  cbn [l_bmr l_tdee l_calorie_goal l_protein_goal l_carbs_goal l_fats_goal].
  destruct (Py.round (spec_calorie_goal u)) as [cal|e1];
    destruct (Py.round (spec_bmr u)) as [b|e2];
    destruct (Py.round (spec_tdee u)) as [t|e3]; cbn_spec; try done.
  repeat split. by rewrite lookup_insert_eq.
Qed.

Lemma C3_bmr_tdee_calorie_goal_witness :
  users (pending (world_of sample_db)) !! 1%Z = Some admin_profile
  ∧ match calculate_user_macros 1 (world_of sample_db) with
    | (Ok m, w') =>
        Py.round (spec_bmr admin_profile) = Ok (Macros.bmr m)
        ∧ Py.round (spec_bmr admin_profile
                    * spec_activity_multiplier (User.activity_level admin_profile))
          = Ok (Macros.tdee m)
        ∧ Py.round (spec_bmr admin_profile
                    * spec_activity_multiplier (User.activity_level admin_profile)
                    + Py.of_int (spec_goal_adjustment (User.goal admin_profile)))
          = Ok (Macros.calories m)
        ∧ User.calorie_goal <$> users (committed w') !! 1%Z
          = Some (Py.of_int (Macros.calories m))
    | (Raise _, _) =>
        Py.is_finite (spec_bmr admin_profile)
        && Py.is_finite (spec_tdee admin_profile)
        && Py.is_finite (spec_calorie_goal admin_profile) = false
    end.
Proof.
  split; [reflexivity|].
  apply (C3_bmr_tdee_calorie_goal (world_of sample_db) 1 admin_profile).
  reflexivity.
Defined.

(** C4: for every profile held by the session, calculate_user_macros sets
    the protein goal to weight times 2.2 (goal gain), 2.4 (goal lose) or
    2.0 (any other goal), the fats goal to a quarter of the calorie goal
    divided by 9 and the carbs goal to what is left of the calorie goal
    after protein (4 per gram) and fat (9 per gram), divided by 4, each
    rounded to one decimal, stored and committed.  The carbs goal is not
    clamped: for the profile (not male, 80 years, 150 cm, 60 kg,
    sedentary, lose) protein and fat calories exceed the calorie goal and
    the stored carbs goal is -18.0. *)
Theorem C4_protein_fats_carbs_goals :
  (∀ (w : World) (uid : Z) (u : User.t),
     users (pending w) !! uid = Some u →
     match calculate_user_macros uid w with
     | (Ok m, w') =>
         Macros.protein m
         = Py.round_to (User.weight u * spec_protein_multiplier (User.goal u)) 1
         ∧ Macros.fats m = Py.round_to (spec_calorie_goal u * 0.25 / 9) 1
         ∧ Macros.carbs m
           = Py.round_to ((spec_calorie_goal u - spec_protein_goal u * 4
                           - spec_fats_goal u * 9) / 4) 1
         ∧ User.goals <$> users (committed w') !! uid
           = Some (Py.of_int (Macros.calories m), Macros.protein m,
                   Macros.carbs m, Macros.fats m)
     | (Raise _, _) =>
         Py.is_finite (spec_bmr u) && Py.is_finite (spec_tdee u)
         && Py.is_finite (spec_calorie_goal u) = false
     end)
  ∧ (spec_calorie_goal frail_profile
     <? spec_protein_goal frail_profile * 4 + spec_fats_goal frail_profile * 9)
    = true
  ∧ fst (calculate_user_macros 3 (world_of sample_db))
    = Ok (Macros.mk 976 1172 672 144 (-18) 18.7)
  ∧ User.carbs_goal <$>
      users (committed (snd (calculate_user_macros 3 (world_of sample_db)))) !! 3%Z
    = Some (-18)
  ∧ (-18 <? 0) = true.
Proof.
  split; [|vm_compute; repeat split; reflexivity].
  intros w uid u Hu. rewrite (calculate_user_macros_run uid u w Hu).
  rewrite <- round_spec_finite.
  change (User.weight u * spec_protein_multiplier (User.goal u))
    with (spec_protein_goal u).
  change (spec_calorie_goal u * 0.25 / 9) with (spec_fats_goal u).
  change ((spec_calorie_goal u - spec_protein_goal u * 4
           - spec_fats_goal u * 9) / 4) with (spec_carbs_goal u).
  unfold assign_goals, macros_dict. rewrite macro_locals_spec.
  cbn [l_bmr l_tdee l_calorie_goal l_protein_goal l_carbs_goal l_fats_goal].
  destruct (Py.round (spec_calorie_goal u)) as [cal|e1];
    destruct (Py.round (spec_bmr u)) as [b|e2];
    destruct (Py.round (spec_tdee u)) as [t|e3]; cbn_spec; try done.
  repeat split. by rewrite lookup_insert_eq.
Qed.

Lemma C4_protein_fats_carbs_goals_witness :
  users (pending (world_of sample_db)) !! 3%Z = Some frail_profile
  ∧ match calculate_user_macros 3 (world_of sample_db) with
    | (Ok m, w') =>
        Macros.protein m
        = Py.round_to (User.weight frail_profile
                       * spec_protein_multiplier (User.goal frail_profile)) 1
        ∧ Macros.fats m = Py.round_to (spec_calorie_goal frail_profile * 0.25 / 9) 1
        ∧ Macros.carbs m
          = Py.round_to ((spec_calorie_goal frail_profile
                          - spec_protein_goal frail_profile * 4
                          - spec_fats_goal frail_profile * 9) / 4) 1
        ∧ User.goals <$> users (committed w') !! 3%Z
          = Some (Py.of_int (Macros.calories m), Macros.protein m,
                  Macros.carbs m, Macros.fats m)
    | (Raise _, _) =>
        Py.is_finite (spec_bmr frail_profile)
        && Py.is_finite (spec_tdee frail_profile)
        && Py.is_finite (spec_calorie_goal frail_profile) = false
    end.
Proof.
  split; [reflexivity|].
  apply (proj1 C4_protein_fats_carbs_goals (world_of sample_db) 3%Z frail_profile).
  reflexivity.
Defined.

End Formulas.

(** ** C5: the recommendation adapter *)

Section Adapter.

Lemma substring_prefix_length (n : nat) (s : string) :
  n ≤ String.length s → String.length (String.substring 0 n s) = n.
Proof.
  revert s. induction n as [|n IH]; intros [|c s] Hn; cbn in *; try lia.
  rewrite IH; lia.
Qed.

Lemma len_fallback : py_len fallback = Ok 3%Z.
Proof. reflexivity. Qed.

Lemma len_spec_recommendations (reply : result json) :
  py_len (spec_recommendations reply) = Ok 3%Z.
Proof.
  unfold spec_recommendations.
  destruct reply as [[| | | | |items|members]|e]; try apply len_fallback.
  destruct (assoc "recommendations" members) as [[| | | |s|items|ms]|];
    try apply len_fallback; case_decide; try apply len_fallback; cbn.
  - rewrite substring_prefix_length by done. reflexivity.
  - rewrite length_take. f_equal. lia.
Qed.

Lemma pick_recommendations_spec (parsed : json) :
  match pick_recommendations parsed with
  | Ok v => v
  | Raise _ => fallback
  end = spec_recommendations (Ok parsed).
Proof.
  unfold pick_recommendations, spec_recommendations, dict_get, rbind.
  destruct parsed as [| | | | | |members]; try reflexivity.
  destruct (assoc "recommendations" members) as [[|b|n|x|s|items|ms]|];
    cbn; try reflexivity.
  - by destruct b.
  - by destruct (n =? 0)%Z.
  - by destruct (PrimFloat.eqb x 0).
  - destruct s as [|c s]; cbn; [reflexivity|].
    case_decide; cbn in *.
    + destruct (Z.leb_spec 3 (Z.of_nat (S (String.length s)))); [done|lia].
    + destruct (Z.leb_spec 3 (Z.of_nat (S (String.length s)))); [lia|done].
  - destruct items as [|i items]; cbn; [reflexivity|].
    case_decide; cbn in *.
    + destruct (Z.leb_spec 3 (Z.of_nat (S (length items)))); [done|lia].
    + destruct (Z.leb_spec 3 (Z.of_nat (S (length items)))); [lia|done].
  - destruct ms as [|m ms]; cbn; [reflexivity|].
    by destruct (3 <=? Z.of_nat (S (length ms)))%Z.
Qed.

Lemma try_body_parsed (generate_content : Prompt.t → result string)
    (json_loads : string → result json) (prompt : Prompt.t) :
  try_body generate_content json_loads prompt
  = rbind (parsed_reply generate_content json_loads prompt)
          pick_recommendations.
Proof.
  unfold try_body, parsed_reply, rbind.
  destruct (generate_content prompt) as [text|e]; cbv beta iota;
    [|reflexivity].
  destruct (strip_fences text) as [cleaned|e]; cbv beta iota; [|reflexivity].
  destruct (json_loads cleaned); reflexivity.
Qed.

(** C5, as the specification states it, fails.  A well-formed reply whose
    three recommendations are numbers is handed back as it is, so the
    result is not three strings; and a meal whose calories are infinite
    makes the function raise while it formats the prompt, before the try
    block is entered. *)
Lemma C5_not_always_three_strings :
  get_ai_recommendations numbers_service sample_json_loads logs_db 739000
    admin_profile = Ok (JArr [JInt 1; JInt 2; JInt 3])
  ∧ three_strings (JArr [JInt 1; JInt 2; JInt 3]) = false
  ∧ get_ai_recommendations failing_service sample_json_loads overflow_db
      739000 admin_profile = Raise OverflowError.
Proof. vm_compute. repeat split; reflexivity. Qed.

(** C5, amended: whenever the prompt can be built (the day's averages
    convert to integers), get_ai_recommendations does not raise, whatever
    the service and the parser do, and returns a value of length 3: the
    first three items of the parsed recommendations when they are a list
    of at least three items (the first three characters when they are a
    string of at least three characters), and the fixed fallback triple in
    every other case - an exception from the service, a reply that does
    not parse, a parsed value that is not an object or has no
    recommendations, or fewer than three of them. *)
Theorem C5_recommendations_or_fallback
    (generate_content : Prompt.t → result string)
    (json_loads : string → result json)
    (db : Db) (today : Z) (user : User.t) (prompt : Prompt.t) :
  build_prompt db today user = Ok prompt →
  get_ai_recommendations generate_content json_loads db today user
  = Ok (spec_recommendations (parsed_reply generate_content json_loads prompt))
  ∧ py_len (spec_recommendations (parsed_reply generate_content json_loads prompt))
    = Ok 3%Z
  ∧ (∀ e, parsed_reply generate_content json_loads prompt = Raise e →
       get_ai_recommendations generate_content json_loads db today user
       = Ok fallback)
  ∧ (∀ members items,
       parsed_reply generate_content json_loads prompt = Ok (JObj members) →
       assoc "recommendations" members = Some (JArr items) →
       get_ai_recommendations generate_content json_loads db today user
       = Ok (if decide (3 ≤ length items) then JArr (take 3 items)
             else fallback)).
Proof.
  intros Hp.
  assert (get_ai_recommendations generate_content json_loads db today user
          = Ok (spec_recommendations
                  (parsed_reply generate_content json_loads prompt))) as Heq.
  { unfold get_ai_recommendations. rewrite Hp. unfold rbind at 1.
    rewrite try_body_parsed.
    destruct (parsed_reply generate_content json_loads prompt)
      as [parsed|e]; [|reflexivity].
    rewrite <- pick_recommendations_spec. unfold rbind.
    by destruct (pick_recommendations parsed). }
  split; [exact Heq|]. split; [apply len_spec_recommendations|]. split.
  - intros e He. rewrite Heq, He. reflexivity.
  - intros members items Hr Hi. rewrite Heq, Hr. cbn. rewrite Hi. reflexivity.
Qed.

Lemma C5_recommendations_or_fallback_witness :
  build_prompt logs_db 739000 admin_profile
  = Ok (Prompt.mk 30 "male" 175 70 2000 150 500 25 2)
  ∧ get_ai_recommendations fenced_tips_service sample_json_loads logs_db
      739000 admin_profile
    = Ok (JArr [JStr "Eat."; JStr "Lift."; JStr "Sleep."]).
Proof.
  split; [reflexivity|].
  destruct (C5_recommendations_or_fallback fenced_tips_service
              sample_json_loads logs_db 739000 admin_profile
              (Prompt.mk 30 "male" 175 70 2000 150 500 25 2) eq_refl)
    as [Heq _].
  rewrite Heq. reflexivity.
Defined.

End Adapter.

(** ** C6 and C7: the aggregation and its window *)

Section Aggregation.
Open Scope float_scope.

Lemma size_dates_distinct (dates : list Z) :
  size (list_to_set dates : gset Z) = length (remove_dups dates).
Proof.
  rewrite <- (size_list_to_set (C:=gset Z) (remove_dups dates))
    by apply NoDup_remove_dups.
  f_equal. apply set_eq. intros d.
  by rewrite !elem_of_list_to_set, elem_of_remove_dups.
Qed.

Lemma foldl_add_float (a : float) (xs : list float) :
  foldl add_float (PyFloat a) xs = PyFloat (foldl PrimFloat.add a xs).
Proof. revert a. induction xs as [|x xs IH]; intros a; [done|apply IH]. Qed.

Lemma sum_nonempty (x : float) (xs : list float) :
  py_sum (x :: xs) = PyFloat (float_sum (x :: xs)).
Proof. unfold py_sum, float_sum. cbn [foldl add_float]. apply foldl_add_float. Qed.

Lemma days_count_distinct (db : Db) (today : Z) (user : User.t) :
  days_count db today user
  = Z.max 1 (Z.of_nat (distinct_days (recent_foods db today user))).
Proof. unfold days_count, distinct_days. by rewrite size_dates_distinct. Qed.

Lemma truediv_float_ok (x : float) (n : Z) :
  (1 ≤ n)%Z → py_truediv (PyFloat x) n = Ok (PyFloat (x / Py.of_int n)).
Proof. intros Hn. unfold py_truediv. case_decide; [lia|reflexivity]. Qed.

(** C6: for every list of in-window food log entries, the average daily
    calories and protein are the sums over the entries divided by the
    number of distinct dates among them taken with a minimum of 1; the
    divisor is at least 1, so neither division raises; with no in-window
    entry both averages are exactly the integer 0. *)
Theorem C6_daily_averages (db : Db) (today : Z) (user : User.t) :
  days_count db today user
  = Z.max 1 (Z.of_nat (distinct_days (recent_foods db today user)))
  ∧ (1 ≤ days_count db today user)%Z
  ∧ is_ok (avg_calories db today user) = true
  ∧ is_ok (avg_protein db today user) = true
  ∧ match recent_foods db today user with
    | [] =>
        avg_calories db today user = Ok (PyInt 0)
        ∧ avg_protein db today user = Ok (PyInt 0)
    | foods =>
        avg_calories db today user
        = Ok (PyFloat (float_sum (map FoodLog.calories foods)
                       / Py.of_int (days_count db today user)))
        ∧ avg_protein db today user
          = Ok (PyFloat (float_sum (map FoodLog.protein foods)
                         / Py.of_int (days_count db today user)))
    end.
Proof.
  assert (1 ≤ days_count db today user)%Z as Hd
    by (unfold days_count; lia).
  split; [apply days_count_distinct|]. split; [exact Hd|].
  unfold avg_calories, avg_protein.
  destruct (recent_foods db today user) as [|f foods]; [done|].
  cbn [map]. rewrite !sum_nonempty, !truediv_float_ok by exact Hd.
  done.
Qed.

(** C7: the window of get_ai_recommendations has length zero: its lower
    bound is today, so the food logs and workout sessions selected are
    those of the user whose date is today or later, which among the rows
    not dated in the future are exactly today's; the workout count is the
    number of selected sessions, one per row: two sessions on the same day
    count as 2. *)
Theorem C7_window_is_today :
  (∀ (db : Db) (today : Z) (user : User.t),
     week_ago today = today
     ∧ (∀ f, f ∈ recent_foods db today user
           ↔ f ∈ food_logs db ∧ FoodLog.user_id f = User.id user
             ∧ (today ≤ FoodLog.date f)%Z)
     ∧ (∀ s, s ∈ recent_workouts db today user
           ↔ s ∈ workout_sessions db ∧ WorkoutSession.user_id s = User.id user
             ∧ (today ≤ WorkoutSession.date s)%Z)
     ∧ filter (λ f, (FoodLog.date f ≤ today)%Z) (recent_foods db today user)
       = filter (λ f, FoodLog.user_id f = User.id user ∧ FoodLog.date f = today)
                (food_logs db)
     ∧ filter (λ s, (WorkoutSession.date s ≤ today)%Z)
              (recent_workouts db today user)
       = filter (λ s, WorkoutSession.user_id s = User.id user
                      ∧ WorkoutSession.date s = today)
                (workout_sessions db)
     ∧ workout_count db today user
       = Z.of_nat (length (filter
           (λ s, WorkoutSession.user_id s = User.id user
                 ∧ (today ≤ WorkoutSession.date s)%Z) (workout_sessions db))))
  ∧ map WorkoutSession.date (recent_workouts logs_db 739000 admin_profile)
    = [739000%Z; 739000%Z]
  ∧ workout_count logs_db 739000 admin_profile = 2%Z.
Proof.
  split; [|vm_compute; split; reflexivity].
  intros db today user.
  assert (week_ago today = today) as Hw
    by (unfold week_ago, timedelta; lia).
  unfold workout_count, recent_foods, recent_workouts. rewrite Hw.
  split; [reflexivity|]. split; [|split; [|split; [|split]]].
  - intros f. rewrite list_elem_of_filter. tauto.
  - intros s. rewrite list_elem_of_filter. tauto.
  - rewrite list_filter_filter. apply list_filter_iff. intros f. lia.
  - rewrite list_filter_filter. apply list_filter_iff. intros s. lia.
  - reflexivity.
Qed.

(** The averages of the sample logs: 150 + 350 calories on one day; with
    the window opened a day earlier, 300 + 150 + 350 calories on two days. *)
Example aggregation_examples :
  avg_calories logs_db 739000 admin_profile = Ok (PyFloat 500)
  ∧ avg_protein logs_db 739000 admin_profile = Ok (PyFloat 25)
  ∧ avg_calories logs_db 738999 admin_profile = Ok (PyFloat 400)
  ∧ avg_calories logs_db 739001 admin_profile = Ok (PyInt 0).
Proof. vm_compute. repeat split; reflexivity. Qed.

End Aggregation.

(** ** What the handlers do to the world *)

Section HandlerRuns.
Variable generate_password_hash : string → string.
Variable env : Env.
Open Scope float_scope.

Lemma food_tracker_weight_run (w : World) (uid : Z) (u : User.t) (weight : float) :
  users (pending w) !! uid = Some u →
  food_tracker env uid (WeightSubmitted weight) w =
  let db1 := weight_logged env w uid u weight in
  match assign_goals (User.set_weight u weight) with
  | Raise e =>
      (Raise e, mk_world db1 db1 (db1 :: history w) (uid :: macro_calls w)
                         (flashes w))
  | Ok u' =>
      let db2 := with_users (insert uid u') db1 in
      match macros_dict (User.set_weight u weight) with
      | Raise e =>
          (Raise e, mk_world db2 db2 (db2 :: db1 :: history w)
                             (uid :: macro_calls w) (flashes w))
      | Ok _ =>
          (Ok (Redirect "food_tracker"),
           mk_world db2 db2 (db2 :: db1 :: history w) (uid :: macro_calls w)
             ((if 0.1 <? abs (weight - User.weight u)
               then WeightUpdated (weight - User.weight u)
               else WeightLogged) :: flashes w))
      end
  end.
Proof.
  intros Hu. unfold food_tracker. unfold_monad. cbn [users with_body_weight_logs].
  rewrite Hu.
  rewrite (calculate_user_macros_run uid (User.set_weight u weight)) by
    (cbn [pending with_users users]; apply lookup_insert_eq).
  cbn [pending committed history macro_calls flashes].
  unfold weight_logged, weight_row.
  destruct (assign_goals (User.set_weight u weight)) as [u'|e]; [|reflexivity].
  cbv zeta.
  destruct (macros_dict (User.set_weight u weight)) as [m|e]; [|reflexivity].
  by destruct (0.1 <? abs (weight - User.weight u)).
Qed.

Lemma register_run (w : World) (form : RegisterForm.t) :
  user_by_email (RegisterForm.email form) (pending w) = None →
  register generate_password_hash None (Some form) w =
  let uid := new_user_id w in
  let db1 := with_users (insert uid (registered_user generate_password_hash w form)) (pending w) in
  match assign_goals (registered_user generate_password_hash w form) with
  | Raise e =>
      (Raise e, mk_world db1 db1 (db1 :: history w) (uid :: macro_calls w)
                         (flashes w))
  | Ok u' =>
      let db2 := with_users (insert uid u') db1 in
      match macros_dict (registered_user generate_password_hash w form) with
      | Raise e =>
          (Raise e, mk_world db2 db2 (db2 :: db1 :: history w)
                             (uid :: macro_calls w) (flashes w))
      | Ok _ =>
          (Ok (Redirect "dashboard"),
           mk_world db2 db2 (db2 :: db1 :: history w) (uid :: macro_calls w)
                    (RegistrationSuccessful :: flashes w))
      end
  end.
Proof.
  intros He. unfold register. unfold_monad. rewrite He.
  fold (new_user_id w). fold (registered_user generate_password_hash w form).
  rewrite (calculate_user_macros_run (new_user_id w) (registered_user generate_password_hash w form))
    by (cbn [pending with_users users]; apply lookup_insert_eq).
  cbn [pending committed history macro_calls flashes].
  destruct (assign_goals (registered_user generate_password_hash w form)) as [u'|e]; [|reflexivity].
  cbv zeta.
  by destruct (macros_dict (registered_user generate_password_hash w form)) as [m|e].
Qed.

Lemma settings_run (w : World) (uid : Z) (u : User.t) (weight : float)
    (activity_level goal : string) :
  users (pending w) !! uid = Some u →
  settings uid (Some (weight, activity_level, goal)) w =
  let u1 := User.set_settings u weight activity_level goal in
  match assign_goals u1 with
  | Raise e =>
      (Raise e, mk_world (with_users (insert uid u1) (pending w)) (committed w)
                         (history w) (uid :: macro_calls w) (flashes w))
  | Ok u' =>
      let db2 := with_users (insert uid u') (with_users (insert uid u1) (pending w)) in
      match macros_dict u1 with
      | Raise e =>
          (Raise e, mk_world db2 db2 (db2 :: history w) (uid :: macro_calls w)
                             (flashes w))
      | Ok macros =>
          (Ok (Redirect "settings"),
           mk_world db2 db2 (db2 :: history w) (uid :: macro_calls w)
                    (SettingsUpdated macros :: flashes w))
      end
  end.
Proof.
  intros Hu. unfold settings. unfold_monad. rewrite Hu.
  rewrite (calculate_user_macros_run uid
             (User.set_settings u weight activity_level goal))
    by (cbn [pending with_users users]; apply lookup_insert_eq).
  cbn [pending committed history macro_calls flashes].
  destruct (assign_goals (User.set_settings u weight activity_level goal))
    as [u'|e]; [|reflexivity].
  cbv zeta.
  by destruct (macros_dict (User.set_settings u weight activity_level goal)).
Qed.

(** On values the database accepts, the handlers of [Checked] are the
    handlers above; on a NaN they raise at their first commit, with the new
    rows staged and nothing committed. *)




Lemma checked_food_storable (w : World) (uid : Z) (food_form : FoodForm.t) :
  storable [FoodForm.calories food_form; FoodForm.protein food_form;
            FoodForm.carbs food_form; FoodForm.fats food_form] = true →
  Checked.food_tracker env uid (FoodSubmitted food_form) w
  = food_tracker env uid (FoodSubmitted food_form) w.
Proof.
  intros Hs. unfold Checked.food_tracker, food_tracker, commit_not_null.
  cbn [FoodLog.calories FoodLog.protein FoodLog.carbs FoodLog.fats].
  by rewrite Hs.
Qed.

Lemma checked_food_nan (w : World) (uid : Z) (food_form : FoodForm.t) :
  storable [FoodForm.calories food_form; FoodForm.protein food_form;
            FoodForm.carbs food_form; FoodForm.fats food_form] = false →
  Checked.food_tracker env uid (FoodSubmitted food_form) w
  = (Raise IntegrityError,
     mk_world (with_food_logs (λ l, l ++ [logged_food env w uid food_form])
                              (pending w))
              (committed w) (history w) (macro_calls w) (flashes w)).
Proof.
  intros Hs. unfold Checked.food_tracker, commit_not_null.
  cbn [FoodLog.calories FoodLog.protein FoodLog.carbs FoodLog.fats].
  rewrite Hs. reflexivity.
Qed.

Lemma checked_weight_storable (w : World) (uid : Z) (weight : float) :
  storable [weight] = true →
  Checked.food_tracker env uid (WeightSubmitted weight) w
  = food_tracker env uid (WeightSubmitted weight) w.
Proof.
  intros Hs. unfold Checked.food_tracker, food_tracker, commit_not_null.
  cbn [BodyWeightLog.weight User.weight User.set_weight storable forallb].
  cbn [storable forallb] in Hs. rewrite andb_true_r in Hs.
  by rewrite Hs.
Qed.

Lemma checked_weight_nan (w : World) (uid : Z) (u : User.t)
    (weight : float) :
  users (pending w) !! uid = Some u →
  storable [weight] = false →
  Checked.food_tracker env uid (WeightSubmitted weight) w
  = (Raise IntegrityError,
     mk_world (weight_logged env w uid u weight) (committed w) (history w)
              (macro_calls w) (flashes w)).
Proof.
  intros Hu Hs. unfold Checked.food_tracker, commit_not_null.
  cbn [BodyWeightLog.weight User.weight User.set_weight storable forallb].
  cbn [storable forallb] in Hs. rewrite andb_true_r in Hs.
  rewrite Hs. unfold_monad. cbn [users with_body_weight_logs]. by rewrite Hu.
Qed.



End HandlerRuns.


Lemma run_request_committed {A} (handler : M A) (w : World) :
  committed (snd (run_request handler w)) = committed (snd (handler w)).
Proof. unfold run_request. by destruct (handler w). Qed.

(** ** C8: logging a body weight *)

Section WeightLogging.
Open Scope float_scope.




End WeightLogging.

(** ** C9 and C10: when the goals are recomputed *)

Section Triggers.
Open Scope float_scope.



(** C10: deleting a body weight entry removes that row and nothing else:
    the users table, and with it the weight and the four goal fields of
    every profile, stays as it was, and calculate_user_macros is not
    called.  The row goes only when it exists and belongs to the current
    user.  After logging 80 kg for the 70 kg admin and deleting that
    entry, the profile still weighs 80 kg and holds the goals of 80 kg. *)
Theorem C10_delete_weight_keeps_profile :
  (∀ (w : World) (current_user weight_id : Z),
     pending w = committed w →
     let r := fst (delete_weight current_user weight_id w) in
     let w' := snd (delete_weight current_user weight_id w) in
     users (committed w') = users (committed w)
     ∧ users (pending w') = users (pending w)
     ∧ macro_calls w' = macro_calls w
     ∧ food_logs (committed w') = food_logs (committed w)
     ∧ workout_sessions (committed w') = workout_sessions (committed w)
     ∧ exercise_sets (committed w') = exercise_sets (committed w)
     ∧ match head (filter (λ l, BodyWeightLog.id l = weight_id)
                          (body_weight_logs (committed w))) with
       | Some weight_log =>
           r = Ok (Redirect "food_tracker")
           ∧ body_weight_logs (committed w')
             = if decide (BodyWeightLog.user_id weight_log = current_user)
               then filter (λ l, BodyWeightLog.id l ≠ weight_id)
                           (body_weight_logs (committed w))
               else body_weight_logs (committed w)
       | None =>
           r = Raise NotFound
           ∧ body_weight_logs (committed w') = body_weight_logs (committed w)
       end)
  ∧ (λ d, (body_weight_logs d, User.weight <$> users d !! 1%Z, goal_fields d 1))
      (committed (snd (run_request (delete_weight 1 1)
         (snd (run_request (food_tracker sample_env 1 (WeightSubmitted 80))
                           (world_of settled_db))))))
    = ([], Some 80, Some (2711, 160, 348.2, 75.3)).
Proof.
  split; [|vm_compute; reflexivity].
  intros w current_user weight_id Hclean r w'. subst r w'.
  unfold delete_weight. unfold_monad. rewrite Hclean.
  destruct (head (filter (λ l, BodyWeightLog.id l = weight_id)
                         (body_weight_logs (committed w))))
    as [weight_log|]; [case_decide|];
    cbn [fst snd pending committed macro_calls users food_logs workout_sessions
         exercise_sets body_weight_logs with_body_weight_logs].
  all: rewrite ?Hclean; done.
Qed.

Lemma C10_delete_weight_keeps_profile_witness :
  pending (world_of settled_db) = committed (world_of settled_db)
  ∧ users (committed (snd (delete_weight 1 7 (world_of settled_db))))
    = users (committed (world_of settled_db)).
Proof.
  split; [reflexivity|].
  apply (proj1 C10_delete_weight_keeps_profile (world_of settled_db) 1%Z 7%Z
           eq_refl).
Defined.

End Triggers.

(** ** Further properties of the handlers *)

Section Keys.

Lemma next_id_above (ids : list Z) (x : Z) :
  x ∈ ids → (x < next_id ids)%Z.
Proof.
  unfold next_id. induction ids as [|y ids IH]; intros Hx.
  - by apply not_elem_of_nil in Hx.
  - apply elem_of_cons in Hx as [->|Hx]; cbn [foldr]; [lia|].
    specialize (IH Hx). lia.
Qed.

Lemma elem_of_map_1 {A B} (f : A → B) (l : list A) (x : A) :
  x ∈ l → f x ∈ map f l.
Proof.
  induction l as [|y l IH]; intros Hx.
  - by apply not_elem_of_nil in Hx.
  - apply elem_of_cons in Hx as [->|Hx]; cbn [map].
    + apply list_elem_of_here.
    + apply list_elem_of_further, IH, Hx.
Qed.

Lemma new_user_id_fresh (w : World) :
  users (pending w) !! new_user_id w = None.
Proof.
  destruct (users (pending w) !! new_user_id w) as [u|] eqn:Hu; [|done].
  apply elem_of_map_to_list in Hu.
  apply (elem_of_map_1 fst) in Hu. apply next_id_above in Hu.
  unfold new_user_id in Hu. cbn [fst] in Hu. lia.
Qed.

Lemma user_by_email_None (e : string) (db : Db) :
  user_by_email e db = None
  ↔ ∀ i u, users db !! i = Some u → User.email u ≠ e.
Proof.
  unfold user_by_email. rewrite head_None. split.
  - intros Hnil i u Hu He.
    eapply (filter_nil_not_elem_of _ _ u Hnil He).
    apply elem_of_map_to_list in Hu. apply (elem_of_map_1 snd) in Hu. exact Hu.
  - intros Hall.
    destruct (filter (λ u, User.email u = e) (map snd (map_to_list (users db))))
      as [|u l] eqn:Hf; [done|].
    assert (u ∈ filter (λ u, User.email u = e)
                       (map snd (map_to_list (users db)))) as Hin
      by (rewrite Hf; apply list_elem_of_here).
    apply list_elem_of_filter in Hin as [He Hin].
    apply list_elem_of_In, in_map_iff in Hin as ([i u'] & <- & Hin).
    apply list_elem_of_In, elem_of_map_to_list in Hin.
    by destruct (Hall i u' Hin).
Qed.

Lemma key_determines_row {A} (key : A → Z) (l : list A) (a b : A) :
  NoDup (map key l) → a ∈ l → b ∈ l → key a = key b → a = b.
Proof.
  induction l as [|x l IH]; intros Hnd Ha Hb Hk.
  - by apply not_elem_of_nil in Ha.
  - cbn [map] in Hnd. apply NoDup_cons in Hnd as [Hx Hnd].
    apply elem_of_cons in Ha as [->|Ha]; apply elem_of_cons in Hb as [->|Hb].
    + done.
    + destruct Hx. rewrite Hk. by apply elem_of_map_1.
    + destruct Hx. rewrite <- Hk. by apply elem_of_map_1.
    + by apply IH.
Qed.

End Keys.

Section Recomputation.
Open Scope float_scope.

Lemma macro_locals_biometrics (u v : User.t) :
  biometrics u = biometrics v → macro_locals u = macro_locals v.
Proof.
  unfold biometrics. intros [= Hw Hh Ha Hg Hl Hgo]. unfold macro_locals.
  by rewrite Hw, Hh, Ha, Hg, Hl, Hgo.
Qed.

Lemma assign_goals_inv (u u' : User.t) :
  assign_goals u = Ok u' →
  ∃ cal prot carb fat, u' = User.set_goals u cal prot carb fat.
Proof.
  unfold assign_goals.
  destruct (Py.round (l_calorie_goal (macro_locals u))) as [cal|e]; [|done].
  intros [= <-]. eauto.
Qed.

Lemma recomputation_of_equal_biometrics (u v : User.t) :
  biometrics u = biometrics v →
  macros_dict u = macros_dict v
  ∧ match assign_goals u, assign_goals v with
    | Ok u', Ok v' =>
        User.goals u' = User.goals v'
        ∧ identity_fields u' = identity_fields u
        ∧ biometrics u' = biometrics u
        ∧ assign_goals u' = Ok u'
        ∧ macros_dict u' = macros_dict u
    | Raise e, Raise e' => e = e'
    | _, _ => False
    end.
Proof.
  intros Hb. pose proof (macro_locals_biometrics u v Hb) as Hl.
  split; [unfold macros_dict; by rewrite Hl|].
  assert (∀ a b c d, macro_locals (User.set_goals u a b c d) = macro_locals u)
    as Hl' by (intros; by apply macro_locals_biometrics).
  unfold assign_goals, macros_dict. rewrite <- Hl.
  destruct (Py.round (l_calorie_goal (macro_locals u))) as [cal|e] eqn:Hr;
    cbv beta iota; [|reflexivity].
  rewrite !Hl', Hr. done.
Qed.

(** The calculator reads the weight, height, age, gender, activity level
    and goal of a profile and nothing else: two profiles that agree on
    these get the same dictionary and the same four goals, whatever goals
    they held before.  It writes the four goal columns and nothing else, and
    a profile that has just been recomputed is left as it is by a second
    recomputation. *)
Theorem recompute_reads_biometrics_only (u v : User.t) :
  biometrics u = biometrics v →
  macros_dict u = macros_dict v
  ∧ match assign_goals u, assign_goals v with
    | Ok u', Ok v' =>
        User.goals u' = User.goals v'
        ∧ identity_fields u' = identity_fields u
        ∧ biometrics u' = biometrics u
        ∧ assign_goals u' = Ok u'
        ∧ macros_dict u' = macros_dict u
    | Raise e, Raise e' => e = e'
    | _, _ => False
    end.
Proof. apply recomputation_of_equal_biometrics. Qed.

Lemma recompute_reads_biometrics_only_witness :
  biometrics settled_admin = biometrics admin_profile
  ∧ macros_dict settled_admin = macros_dict admin_profile
  ∧ assign_goals settled_admin = Ok settled_admin.
Proof.
  split; [reflexivity|].
  pose proof (recompute_reads_biometrics_only settled_admin admin_profile
                eq_refl) as [Hd _].
  split; [exact Hd|reflexivity].
Defined.

Lemma assign_goals_fixed (u u' : User.t) :
  assign_goals u = Ok u' → assign_goals u' = Ok u'.
Proof.
  intros Hu. pose proof (recomputation_of_equal_biometrics u u eq_refl) as [_ H].
  rewrite Hu in H. tauto.
Qed.

Lemma with_users_insert_twice (uid : Z) (a b : User.t) (db : Db) :
  with_users (insert uid a) (with_users (insert uid b) db)
  = with_users (insert uid a) db.
Proof. unfold with_users. cbn. by rewrite insert_insert_eq. Qed.

(** /settings is all or nothing.  A submission makes one commit, which
    carries the new weight, activity level and goal together with the goals
    recomputed from them; when the recomputation raises, nothing of the
    submission is committed and the request leaves the database as it
    found it. *)
Theorem settings_all_or_nothing (w : World) (uid : Z) (u : User.t)
    (weight : float) (activity_level goal : string) :
  users (pending w) !! uid = Some u →
  pending w = committed w →
  let r := fst (run_request (settings uid (Some (weight, activity_level, goal))) w) in
  let w' := snd (run_request (settings uid (Some (weight, activity_level, goal))) w) in
  match assign_goals (User.set_settings u weight activity_level goal) with
  | Ok u' =>
      history w' = with_users (insert uid u') (committed w) :: history w
      ∧ committed w' = with_users (insert uid u') (committed w)
      ∧ biometrics u'
        = (weight, User.height u, User.age u, User.gender u, activity_level, goal)
      ∧ identity_fields u' = identity_fields u
      ∧ assign_goals u' = Ok u'
  | Raise e =>
      r = Raise e
      ∧ committed w' = committed w
      ∧ pending w' = committed w
      ∧ history w' = history w
  end.
Proof.
  intros Hu Hclean r w'. subst r w'. unfold run_request.
  rewrite (settings_run w uid u weight activity_level goal Hu). cbv zeta.
  destruct (assign_goals (User.set_settings u weight activity_level goal))
    as [u'|e] eqn:Hg.
  - rewrite with_users_insert_twice, Hclean.
    destruct (assign_goals_inv _ _ Hg) as (c & p & cb & f & ->).
    pose proof (assign_goals_fixed _ _ Hg) as Hfix.
    by destruct (macros_dict (User.set_settings u weight activity_level goal)).
  - done.
Qed.

Lemma settings_all_or_nothing_witness :
  users (pending (world_of settled_db)) !! 1%Z = Some settled_admin
  ∧ pending (world_of settled_db) = committed (world_of settled_db)
  ∧ committed (snd (run_request (settings 1 (Some (1e308, "light", "gain")))
                                (world_of settled_db)))
    = committed (world_of settled_db)
  ∧ length (history (snd (run_request (settings 1 (Some (80, "light", "gain")))
                                      (world_of settled_db)))) = 1%nat.
Proof.
  split; [reflexivity|]. split; [reflexivity|]. split.
  - pose proof (settings_all_or_nothing (world_of settled_db) 1 settled_admin
                  1e308 "light" "gain" eq_refl eq_refl) as H.
    cbv zeta in H.
    change (assign_goals (User.set_settings settled_admin 1e308 "light" "gain"))
      with (@Raise User.t OverflowError) in H.
    exact (proj1 (proj2 H)).
  - pose proof (settings_all_or_nothing (world_of settled_db) 1 settled_admin
                  80 "light" "gain" eq_refl eq_refl) as H.
    cbv zeta in H.
    destruct (assign_goals (User.set_settings settled_admin 80 "light" "gain"))
      as [u'|e]; [|by vm_compute].
    destruct H as [-> _]. reflexivity.
Defined.

End Recomputation.

Section Registration.
Variable generate_password_hash : string → string.
Open Scope float_scope.

(** The users table a registration request commits: the one it found, or
    that one with a single new row under a fresh key. *)
Lemma register_committed_users (w : World) (visitor : option Z)
    (form : option RegisterForm.t) :
  pending w = committed w →
  users (committed (snd (run_request
           (register generate_password_hash visitor form) w)))
  = users (committed w)
  ∨ ∃ f u',
      form = Some f
      ∧ user_by_email (RegisterForm.email f) (committed w) = None
      ∧ users (committed (snd (run_request
                 (register generate_password_hash visitor form) w)))
        = <[new_user_id w := u']> (users (committed w))
      ∧ identity_fields u'
        = (new_user_id w, RegisterForm.name f, RegisterForm.email f,
           generate_password_hash (RegisterForm.password f), false).
Proof.
  intros Hclean. rewrite run_request_committed.
  destruct visitor as [v|]; [by left|].
  destruct form as [f|]; [|by left].
  destruct (user_by_email (RegisterForm.email f) (pending w)) as [x|] eqn:He.
  { left. unfold register. unfold_monad. by rewrite He. }
  right. exists f. rewrite (register_run generate_password_hash w f He).
  cbv zeta. rewrite <- Hclean.
  destruct (assign_goals (registered_user generate_password_hash w f))
    as [u'|e] eqn:Hg.
  - exists u'. destruct (assign_goals_inv _ _ Hg) as (c & p & cb & fa & ->).
    destruct (macros_dict (registered_user generate_password_hash w f));
      cbn [snd committed users with_users]; rewrite insert_insert_eq; done.
  - exists (registered_user generate_password_hash w f). done.
Qed.

(** A registration request never changes or replaces an existing profile:
    whatever is submitted, every user the database held is still there
    afterwards, field for field, because the new row gets a key that is
    not in use. *)
Theorem register_keeps_existing_users (w : World) (visitor : option Z)
    (form : option RegisterForm.t) (uid : Z) (u : User.t) :
  pending w = committed w →
  users (committed w) !! uid = Some u →
  users (committed (snd (run_request
           (register generate_password_hash visitor form) w))) !! uid
  = Some u.
Proof.
  intros Hclean Hu.
  destruct (register_committed_users w visitor form Hclean)
    as [->|(f & u' & _ & _ & -> & _)]; [done|].
  rewrite lookup_insert_ne; [done|]. intros <-.
  pose proof (new_user_id_fresh w) as Hfresh. rewrite Hclean in Hfresh.
  congruence.
Qed.

(** Registration keeps emails unique: when no two users share an email
    before a registration request, none do after it, because a form whose
    email is taken adds nothing. *)
Theorem register_keeps_emails_unique (w : World) (visitor : option Z)
    (form : option RegisterForm.t) :
  pending w = committed w →
  unique_emails (committed w) →
  unique_emails (committed (snd (run_request
                   (register generate_password_hash visitor form) w))).
Proof.
  intros Hclean Huniq. unfold unique_emails.
  destruct (register_committed_users w visitor form Hclean)
    as [->|(f & u' & _ & He & -> & Hid)]; [exact Huniq|].
  pose proof (proj1 (user_by_email_None _ _) He) as Hfree.
  assert (User.email u' = RegisterForm.email f) as Hmail
    by (unfold identity_fields in Hid; congruence).
  intros i j a b Ha Hb Hab.
  destruct (decide (i = new_user_id w)) as [->|Hi];
    destruct (decide (j = new_user_id w)) as [->|Hj]; [done| | |].
  - rewrite lookup_insert_eq in Ha. rewrite lookup_insert_ne in Hb by done.
    destruct (Hfree j b Hb). congruence.
  - rewrite lookup_insert_eq in Hb. rewrite lookup_insert_ne in Ha by done.
    destruct (Hfree i a Ha). congruence.
  - rewrite lookup_insert_ne in Ha by done.
    rewrite lookup_insert_ne in Hb by done. eauto.
Qed.

End Registration.

Lemma settled_db_unique_emails : unique_emails settled_db.
Proof.
  intros i j u v Hi Hj _. cbn [users settled_db] in Hi, Hj.
  apply lookup_singleton_Some in Hi as [<- _].
  apply lookup_singleton_Some in Hj as [<- _]. reflexivity.
Qed.

Lemma register_keeps_existing_users_witness :
  pending (world_of settled_db) = committed (world_of settled_db)
  ∧ users (committed (world_of settled_db)) !! 1%Z = Some settled_admin
  ∧ users (committed (snd (run_request
             (register (λ password, password) None (Some sample_form))
             (world_of settled_db)))) !! 1%Z
    = Some settled_admin.
Proof.
  split; [reflexivity|]. split; [reflexivity|].
  apply (register_keeps_existing_users (λ password, password)
           (world_of settled_db) None (Some sample_form) 1%Z settled_admin
           eq_refl eq_refl).
Defined.

Lemma register_keeps_emails_unique_witness :
  pending (world_of settled_db) = committed (world_of settled_db)
  ∧ unique_emails (committed (world_of settled_db))
  ∧ unique_emails (committed (snd (run_request
                     (register (λ password, password) None (Some sample_form))
                     (world_of settled_db)))).
Proof.
  split; [reflexivity|]. split; [exact settled_db_unique_emails|].
  apply (register_keeps_emails_unique (λ password, password)
           (world_of settled_db) None (Some sample_form) eq_refl
           settled_db_unique_emails).
Defined.

Section Privileges.
Variable generate_password_hash : string → string.
Variable env : Env.
Open Scope float_scope.

Lemma is_admin_at_insert (db : Db) (uid x : Z) (u u' : User.t) :
  users db !! uid = Some u →
  User.is_admin u' = User.is_admin u →
  is_admin_at (with_users (insert uid u') db) x → is_admin_at db x.
Proof.
  unfold is_admin_at. cbn [users with_users]. intros Hu Ha.
  destruct (decide (x = uid)) as [->|Hne].
  - rewrite lookup_insert_eq, Hu. cbn. congruence.
  - by rewrite lookup_insert_ne.
Qed.

(** No request to /register, /food-tracker or /settings makes anyone an
    admin: whoever is an admin in the database after such a request was one
    before it.  A registered user is created without the flag, and the
    weight and settings handlers write the weight, activity level, goal and
    the four goals only. *)
Theorem user_routes_grant_no_admin (w : World) (x : Z) :
  pending w = committed w →
  (∀ visitor form,
     is_admin_at (committed (snd (run_request
        (register generate_password_hash visitor form) w))) x →
     is_admin_at (committed w) x)
  ∧ (∀ uid req,
     is_admin_at (committed (snd (run_request (food_tracker env uid req) w))) x →
     is_admin_at (committed w) x)
  ∧ (∀ uid form,
     is_admin_at (committed (snd (run_request (settings uid form) w))) x →
     is_admin_at (committed w) x).
Proof.
  intros Hclean. repeat apply conj.
  - intros visitor form. unfold is_admin_at.
    destruct (register_committed_users generate_password_hash w visitor form
                Hclean) as [->|(f & u' & _ & _ & -> & Hid)]; [done|].
    destruct (decide (x = new_user_id w)) as [->|Hne].
    + rewrite lookup_insert_eq. unfold identity_fields in Hid. cbn.
      intros [= Ha]. congruence.
    + by rewrite lookup_insert_ne.
  - intros uid [food_form|weight|]; rewrite run_request_committed.
    + unfold food_tracker. unfold_monad. cbn [snd committed].
      unfold is_admin_at. cbn [users with_food_logs]. by rewrite Hclean.
    + destruct (users (pending w) !! uid) as [u|] eqn:Hu.
      * rewrite (food_tracker_weight_run env w uid u weight Hu). cbv zeta.
        assert (is_admin_at (weight_logged env w uid u weight) x →
                is_admin_at (committed w) x) as H1.
        { rewrite <- Hclean. intros H.
          exact (is_admin_at_insert
                   (with_body_weight_logs
                      (λ l, l ++ [weight_row env w uid weight]) (pending w))
                   uid x u (User.set_weight u weight) Hu eq_refl H). }
        destruct (assign_goals (User.set_weight u weight)) as [u'|e] eqn:Hg;
          [|exact H1].
        destruct (assign_goals_inv _ _ Hg) as (c & p & cb & f & ->).
        intros H. apply H1.
        apply (is_admin_at_insert (weight_logged env w uid u weight) uid x
                 (User.set_weight u weight)
                 (User.set_goals (User.set_weight u weight) c p cb f));
          [apply lookup_insert_eq|reflexivity|].
        by destruct (macros_dict (User.set_weight u weight)).
      * unfold food_tracker. unfold_monad. cbn [users with_body_weight_logs].
        rewrite Hu. cbn [snd committed]. done.
    + done.
  - intros uid [[[weight activity_level] goal]|]; rewrite run_request_committed;
      [|done].
    destruct (users (pending w) !! uid) as [u|] eqn:Hu.
    + rewrite (settings_run w uid u weight activity_level goal Hu). cbv zeta.
      destruct (assign_goals (User.set_settings u weight activity_level goal))
        as [u'|e] eqn:Hg; [|done].
      destruct (assign_goals_inv _ _ Hg) as (c & p & cb & f & ->).
      rewrite with_users_insert_twice. intros H. rewrite <- Hclean.
      apply (is_admin_at_insert (pending w) uid x u
               (User.set_goals
                  (User.set_settings u weight activity_level goal) c p cb f)
               Hu eq_refl).
      by destruct (macros_dict (User.set_settings u weight activity_level goal)).
    + unfold settings. unfold_monad. rewrite Hu. done.
Qed.

End Privileges.

Lemma user_routes_grant_no_admin_witness :
  pending (world_of settled_db) = committed (world_of settled_db)
  ∧ (is_admin_at (committed (snd (run_request
        (register (λ password, password) None (Some sample_form))
        (world_of settled_db)))) 1 →
     is_admin_at (committed (world_of settled_db)) 1).
Proof.
  split; [reflexivity|].
  apply (proj1 (user_routes_grant_no_admin (λ password, password) sample_env
                  (world_of settled_db) 1%Z eq_refl) None (Some sample_form)).
Defined.

Section Deletions.
Variable env : Env.
Open Scope float_scope.

Lemma filter_key_fresh {A} (key : A → Z) (l : list A) (k : Z) :
  (∀ x, x ∈ l → key x ≠ k) →
  filter (λ x, key x = k) l = [] ∧ filter (λ x, key x ≠ k) l = l.
Proof.
  induction l as [|y l IH]; intros Hfresh; [done|].
  destruct IH as [IH1 IH2].
  { intros x Hx. apply Hfresh. by apply list_elem_of_further. }
  pose proof (Hfresh y (list_elem_of_here y l)) as Hy.
  rewrite !filter_cons, IH1, IH2.
  destruct (decide (key y = k)); [done|]. by destruct (decide (key y ≠ k)).
Qed.

Lemma next_id_fresh {A} (key : A → Z) (l : list A) (x : A) :
  x ∈ l → key x ≠ next_id (map key l).
Proof.
  intros Hx. apply (elem_of_map_1 key) in Hx. apply next_id_above in Hx. lia.
Qed.

Lemma filter_key_appended {A} (key : A → Z) (l : list A) (x : A) :
  key x = next_id (map key l) →
  head (filter (λ y, key y = key x) (l ++ [x])) = Some x
  ∧ filter (λ y, key y ≠ key x) (l ++ [x]) = l.
Proof.
  intros Hk.
  destruct (filter_key_fresh key l (key x)) as [H1 H2].
  { intros y Hy. rewrite Hk. by apply next_id_fresh. }
  rewrite !filter_app, H1, H2, !filter_cons, !filter_nil.
  destruct (decide (key x = key x)); [|done].
  destruct (decide (key x ≠ key x)); [done|]. by rewrite app_nil_r.
Qed.

Lemma delete_food_run (w : World) (current_user food_id : Z) :
  delete_food current_user food_id w =
  match head (filter (λ l, FoodLog.id l = food_id) (food_logs (pending w))) with
  | None => (Raise NotFound, w)
  | Some food_log =>
      if decide (FoodLog.user_id food_log = current_user)
      then
        let db := with_food_logs (filter (λ l, FoodLog.id l ≠ food_id))
                                 (pending w) in
        (Ok (["Food entry deleted!"], Redirect "food_tracker"),
         mk_world db db (db :: history w) (macro_calls w) (flashes w))
      else (Ok ([], Redirect "food_tracker"), w)
  end.
Proof.
  unfold delete_food. unfold_monad.
  destruct (head (filter (λ l, FoodLog.id l = food_id) (food_logs (pending w))))
    as [food_log|]; [|reflexivity].
  by destruct (decide (FoodLog.user_id food_log = current_user)).
Qed.

(** /delete-food removes the row with the given id when the current user
    owns it, and nothing else: with distinct primary keys, the food logs
    after the request are those before it except a row that has the id and
    belongs to the current user; rows of other users stay, whatever id is
    asked for, and the other tables are not touched. *)
Theorem delete_food_removes_own_row_only (w : World) (current_user food_id : Z) :
  NoDup (map FoodLog.id (food_logs (pending w))) →
  let w' := snd (delete_food current_user food_id w) in
  (∀ row, row ∈ food_logs (pending w')
          ↔ row ∈ food_logs (pending w)
            ∧ ¬ (FoodLog.id row = food_id ∧ FoodLog.user_id row = current_user))
  ∧ users (pending w') = users (pending w)
  ∧ workout_sessions (pending w') = workout_sessions (pending w)
  ∧ exercise_sets (pending w') = exercise_sets (pending w)
  ∧ body_weight_logs (pending w') = body_weight_logs (pending w)
  ∧ macro_calls w' = macro_calls w.
Proof.
  intros Hnd w'. subst w'. rewrite delete_food_run.
  destruct (head (filter (λ l, FoodLog.id l = food_id) (food_logs (pending w))))
    as [h|] eqn:Hh.
  - apply head_Some_elem_of, list_elem_of_filter in Hh as [Hid Hin].
    destruct (decide (FoodLog.user_id h = current_user)) as [Ho|Ho];
      cbn [snd pending users food_logs workout_sessions exercise_sets
           body_weight_logs macro_calls with_food_logs];
      (split; [|done]); intros row.
    + rewrite list_elem_of_filter. split.
      * intros [Hne Hrow]. split; [done|]. by intros [? _].
      * intros [Hrow Hnot]. split; [|done]. intros Heq. apply Hnot.
        split; [done|].
        by rewrite (key_determines_row FoodLog.id _ row h Hnd Hrow Hin)
          by congruence.
    + split; [|by intros [? _]]. intros Hrow. split; [done|].
      intros [Heq Hown]. apply Ho.
      by rewrite <- (key_determines_row FoodLog.id _ row h Hnd Hrow Hin)
        by congruence.
  - apply head_None in Hh. cbn [snd]. split; [|done]. intros row.
    split; [|by intros [? _]]. intros Hrow. split; [done|].
    intros [Heq _]. by eapply (filter_nil_not_elem_of _ _ row Hh).
Qed.

Lemma food_tracker_food_run (w : World) (uid : Z) (food_form : FoodForm.t) :
  food_tracker env uid (FoodSubmitted food_form) w =
  let db := with_food_logs (λ l, l ++ [logged_food env w uid food_form])
                           (pending w) in
  (Ok (Redirect "food_tracker"),
   mk_world db db (db :: history w) (macro_calls w) (FoodLogged :: flashes w)).
Proof. reflexivity. Qed.

(** Logging a food entry and then deleting it restores the database: the
    row just logged, under the key it was given, is found and removed, and
    the committed state is the one before the entry was logged.  A form
    that carries a NaN is not logged at all: the commit raises
    IntegrityError, the database stays as it was, and deleting under the
    key the row would have had answers 404. *)
Theorem food_log_then_delete_restores (w : World) (uid : Z)
    (food_form : FoodForm.t) :
  pending w = committed w →
  let logging := run_request
                   (Checked.food_tracker env uid (FoodSubmitted food_form)) w in
  let w1 := snd logging in
  let food_id := next_id (map FoodLog.id (food_logs (committed w))) in
  if storable [FoodForm.calories food_form; FoodForm.protein food_form;
               FoodForm.carbs food_form; FoodForm.fats food_form]
  then fst logging = Ok (Redirect "food_tracker")
       ∧ fst (run_request (delete_food uid food_id) w1)
         = Ok (["Food entry deleted!"], Redirect "food_tracker")
       ∧ committed (snd (run_request (delete_food uid food_id) w1)) = committed w
       ∧ length (food_logs (committed w1)) = S (length (food_logs (committed w)))
  else fst logging = Raise IntegrityError
       ∧ committed w1 = committed w
       ∧ fst (run_request (delete_food uid food_id) w1) = Raise NotFound.
Proof.
  intros Hclean logging w1 food_id. subst logging w1 food_id. rewrite <- Hclean.
  destruct (storable [FoodForm.calories food_form; FoodForm.protein food_form;
                      FoodForm.carbs food_form; FoodForm.fats food_form]) eqn:Hs.
  - unfold run_request. rewrite (checked_food_storable env w uid food_form Hs).
    rewrite food_tracker_food_run, delete_food_run.
    cbv zeta. cbn [snd teardown pending committed food_logs with_food_logs].
    destruct (filter_key_appended FoodLog.id (food_logs (pending w))
                (logged_food env w uid food_form) eq_refl) as [Hhead Hrest].
    cbn [FoodLog.id logged_food] in Hhead, Hrest. rewrite Hhead.
    cbn [FoodLog.user_id logged_food]. destruct (decide (uid = uid)); [|done].
    cbn [fst snd teardown committed]. unfold with_food_logs.
    cbn [users food_logs workout_sessions exercise_sets body_weight_logs].
    rewrite Hrest, length_app. cbn [length].
    split; [done|]. split; [done|]. split; [by destruct (pending w)|lia].
  - unfold run_request. rewrite (checked_food_nan env w uid food_form Hs).
    cbn [fst snd teardown pending committed]. rewrite <- Hclean.
    split; [done|]. split; [done|].
    rewrite delete_food_run. cbn [pending teardown committed].
    destruct (filter_key_fresh FoodLog.id (food_logs (pending w))
                (next_id (map FoodLog.id (food_logs (pending w))))) as [Hnone _].
    { intros x Hx. by apply next_id_fresh. }
    by rewrite Hnone.
Qed.

End Deletions.

Section WeightRoundTrip.
Variable env : Env.
Open Scope float_scope.

Lemma delete_weight_run (w : World) (current_user weight_id : Z) :
  delete_weight current_user weight_id w =
  match head (filter (λ l, BodyWeightLog.id l = weight_id)
                     (body_weight_logs (pending w))) with
  | None => (Raise NotFound, w)
  | Some weight_log =>
      if decide (BodyWeightLog.user_id weight_log = current_user)
      then
        let db := with_body_weight_logs
                    (filter (λ l, BodyWeightLog.id l ≠ weight_id)) (pending w) in
        (Ok (Redirect "food_tracker"),
         mk_world db db (db :: history w) (macro_calls w)
                  (WeightEntryDeleted :: flashes w))
      else (Ok (Redirect "food_tracker"), w)
  end.
Proof.
  unfold delete_weight. unfold_monad.
  destruct (head (filter (λ l, BodyWeightLog.id l = weight_id)
                         (body_weight_logs (pending w))))
    as [weight_log|]; [|reflexivity].
  by destruct (decide (BodyWeightLog.user_id weight_log = current_user)).
Qed.

Lemma delete_logged_weight_run (w : World) (uid : Z) (weight : float)
    (db : Db) (hist : list Db) (calls : list Z) (fl : list flash_msg) :
  body_weight_logs db
  = body_weight_logs (pending w) ++ [weight_row env w uid weight] →
  delete_weight uid
    (next_id (map BodyWeightLog.id (body_weight_logs (pending w))))
    (teardown (mk_world db db hist calls fl))
  = let db' := with_body_weight_logs (λ _, body_weight_logs (pending w)) db in
    (Ok (Redirect "food_tracker"),
     mk_world db' db' (db' :: hist) calls (WeightEntryDeleted :: fl)).
Proof.
  intros Hrows. rewrite delete_weight_run.
  destruct (filter_key_appended BodyWeightLog.id (body_weight_logs (pending w))
              (weight_row env w uid weight) eq_refl) as [Hhead Hrest].
  cbn [BodyWeightLog.id weight_row] in Hhead, Hrest.
  cbn [teardown pending committed history macro_calls flashes].
  rewrite Hrows, Hhead. cbn [BodyWeightLog.user_id weight_row].
  destruct (decide (uid = uid)); [|done].
  cbv zeta. unfold with_body_weight_logs. by rewrite Hrows, Hrest.
Qed.

(** Logging a body weight and then deleting the entry does not undo the
    change: the weight log table is back to what it was, but the profile
    keeps the logged weight, with the goals recomputed from it when the
    recomputation assigns them and with its previous goals when the
    recomputation raises.  A NaN is not logged at all: the commit raises
    IntegrityError, the database stays as it was, and deleting under the
    key the row would have had answers 404. *)
Theorem weight_log_then_delete_keeps_profile (w : World) (uid : Z)
    (u : User.t) (weight : float) :
  pending w = committed w →
  users (pending w) !! uid = Some u →
  let logging := run_request
                   (Checked.food_tracker env uid (WeightSubmitted weight)) w in
  let w1 := snd logging in
  let weight_id := next_id (map BodyWeightLog.id (body_weight_logs (committed w))) in
  let deleting := run_request (delete_weight uid weight_id) w1 in
  let w2 := snd deleting in
  if storable [weight]
  then
    let kept := match assign_goals (User.set_weight u weight) with
                | Ok u' => u'
                | Raise _ => User.set_weight u weight
                end in
    fst deleting = Ok (Redirect "food_tracker")
    ∧ body_weight_logs (committed w2) = body_weight_logs (committed w)
    ∧ users (committed w2) = <[uid := kept]> (users (committed w))
    ∧ biometrics kept
      = (weight, User.height u, User.age u, User.gender u,
         User.activity_level u, User.goal u)
    ∧ (∀ u', assign_goals (User.set_weight u weight) = Ok u' →
             assign_goals kept = Ok kept)
    ∧ (∀ e, assign_goals (User.set_weight u weight) = Raise e →
            fst logging = Raise e ∧ User.goals kept = User.goals u)
    ∧ food_logs (committed w2) = food_logs (committed w)
    ∧ workout_sessions (committed w2) = workout_sessions (committed w)
    ∧ exercise_sets (committed w2) = exercise_sets (committed w)
  else
    fst logging = Raise IntegrityError
    ∧ committed w1 = committed w
    ∧ fst deleting = Raise NotFound
    ∧ committed w2 = committed w.
Proof.
  intros Hclean Hu logging w1 weight_id deleting w2.
  subst logging w1 weight_id deleting w2. rewrite <- Hclean.
  unfold run_request.
  destruct (storable [weight]) eqn:Hs.
  - rewrite (checked_weight_storable env w uid weight Hs).
    rewrite (food_tracker_weight_run env w uid u weight Hu). cbv zeta.
    destruct (assign_goals (User.set_weight u weight)) as [u'|e] eqn:Hg.
    + pose proof (assign_goals_fixed _ _ Hg) as Hfix.
      destruct (assign_goals_inv _ _ Hg) as (c & p & cb & f & ->).
      destruct (macros_dict (User.set_weight u weight)) as [m|e];
        cbn [snd]; rewrite (delete_logged_weight_run w uid weight) by reflexivity;
        cbv zeta; cbn [fst snd teardown committed];
        unfold weight_logged, with_body_weight_logs, with_users;
        cbn [users food_logs workout_sessions exercise_sets body_weight_logs];
        rewrite insert_insert_eq; repeat split; done.
    + cbn [snd]. rewrite (delete_logged_weight_run w uid weight) by reflexivity.
      cbv zeta. cbn [fst snd teardown committed].
      unfold weight_logged, with_body_weight_logs, with_users.
      cbn [users food_logs workout_sessions exercise_sets body_weight_logs].
      repeat split; try done. by simplify_eq.
  - rewrite (checked_weight_nan env w uid u weight Hu Hs).
    cbn [fst snd]. rewrite delete_weight_run.
    cbn [teardown pending committed]. rewrite <- ?Hclean.
    destruct (filter_key_fresh BodyWeightLog.id (body_weight_logs (pending w))
                (next_id (map BodyWeightLog.id (body_weight_logs (pending w)))))
      as [Hnone _].
    { intros x Hx. by apply next_id_fresh. }
    rewrite Hnone. cbn [head fst snd teardown committed]. by rewrite <- ?Hclean.
Qed.

End WeightRoundTrip.

Section Workouts.
Open Scope float_scope.





End Workouts.

Section Cascade.
Open Scope float_scope.

Lemma delete_workout_session_run (w : World) (current_user session_id : Z) :
  delete_workout_session current_user session_id w =
  match head (filter (λ s, WorkoutSession.id s = session_id)
                     (workout_sessions (pending w))) with
  | None => (Raise NotFound, w)
  | Some workout_session =>
      if decide (WorkoutSession.user_id workout_session = current_user)
      then
        let db :=
          with_workout_sessions
            (filter (λ s, WorkoutSession.id s ≠ session_id))
            (with_exercise_sets
               (filter (λ e, ExerciseSet.workout_session_id e ≠ session_id))
               (pending w)) in
        (Ok (["Workout session deleted!"], Redirect "profile_workout_history"),
         mk_world db db (db :: history w) (macro_calls w) (flashes w))
      else (Ok ([], Redirect "profile_workout_history"), w)
  end.
Proof.
  unfold delete_workout_session. unfold_monad.
  destruct (head (filter (λ s, WorkoutSession.id s = session_id)
                         (workout_sessions (pending w))))
    as [workout_session|]; [|reflexivity].
  by destruct (decide (WorkoutSession.user_id workout_session = current_user)).
Qed.

Lemma delete_workout_session_rows (w : World)
    (current_user session_id : Z) :
  NoDup (map WorkoutSession.id (workout_sessions (pending w))) →
  let w' := snd (delete_workout_session current_user session_id w) in
  (∀ s, s ∈ workout_sessions (pending w')
        ↔ s ∈ workout_sessions (pending w)
          ∧ ¬ (WorkoutSession.id s = session_id
               ∧ WorkoutSession.user_id s = current_user))
  ∧ (∀ e, e ∈ exercise_sets (pending w')
          ↔ e ∈ exercise_sets (pending w)
            ∧ ¬ (ExerciseSet.workout_session_id e = session_id
                 ∧ ∃ s, s ∈ workout_sessions (pending w)
                        ∧ WorkoutSession.id s = session_id
                        ∧ WorkoutSession.user_id s = current_user))
  ∧ users (pending w') = users (pending w)
  ∧ food_logs (pending w') = food_logs (pending w)
  ∧ body_weight_logs (pending w') = body_weight_logs (pending w).
Proof.
  intros Hnd w'. subst w'. rewrite delete_workout_session_run.
  destruct (head (filter (λ s, WorkoutSession.id s = session_id)
                         (workout_sessions (pending w)))) as [h|] eqn:Hh.
  - apply head_Some_elem_of, list_elem_of_filter in Hh as [Hid Hin].
    assert (∀ s, s ∈ workout_sessions (pending w) →
                 WorkoutSession.id s = session_id → s = h) as Hsame.
    { intros s Hs Hsid.
      apply (key_determines_row WorkoutSession.id _ s h Hnd Hs Hin). congruence. }
    destruct (decide (WorkoutSession.user_id h = current_user)) as [Ho|Ho];
      cbn [snd pending users food_logs workout_sessions exercise_sets
           body_weight_logs with_workout_sessions with_exercise_sets];
      (split; [|split; [|done]]).
    + intros s. rewrite list_elem_of_filter. split.
      * intros [Hne Hs]. split; [done|]. by intros [? _].
      * intros [Hs Hnot]. split; [|done]. intros Heq. apply Hnot.
        split; [done|]. by rewrite (Hsame s Hs Heq).
    + intros e. rewrite list_elem_of_filter. split.
      * intros [Hne He]. split; [done|]. by intros [? _].
      * intros [He Hnot]. split; [|done]. intros Heq. apply Hnot.
        split; [done|]. by exists h.
    + intros s. split; [|by intros [? _]]. intros Hs. split; [done|].
      intros [Heq Hown]. apply Ho. by rewrite <- (Hsame s Hs Heq).
    + intros e. split; [|by intros [? _]]. intros He. split; [done|].
      intros [_ (s & Hs & Heq & Hown)]. apply Ho.
      by rewrite <- (Hsame s Hs Heq).
  - apply head_None in Hh. cbn [snd]. split; [|split; [|done]].
    + intros s. split; [|by intros [? _]]. intros Hs. split; [done|].
      intros [Heq _]. by eapply (filter_nil_not_elem_of _ _ s Hh).
    + intros e. split; [|by intros [? _]]. intros He. split; [done|].
      intros [_ (s & Hs & Heq & _)]. by eapply (filter_nil_not_elem_of _ _ s Hh).
Qed.


(** Deleting a workout session never leaves a set behind without its
    session: when every exercise set points to an existing session before
    the request, every set does after it. *)
Theorem delete_workout_session_keeps_no_orphans (w : World)
    (current_user session_id : Z) :
  NoDup (map WorkoutSession.id (workout_sessions (pending w))) →
  no_orphans (pending w) →
  no_orphans (pending (snd (delete_workout_session current_user session_id w))).
Proof.
  intros Hnd Hno.
  destruct (delete_workout_session_rows w current_user session_id Hnd)
    as (Hs & He & _).
  intros e Hin. apply He in Hin as [Hin Hnot].
  destruct (Hno e Hin) as (s & Hsin & Hsid).
  exists s. split; [|done]. apply Hs. split; [done|].
  intros [Heq Hown]. apply Hnot. split; [congruence|]. by exists s.
Qed.




End Cascade.

Section FenceStripping.

Lemma py_split_go_nonempty (fuel : nat) (sep s : string) :
  ∃ a rest, py_split_go fuel sep s = a :: rest.
Proof.
  destruct fuel as [|fuel]; cbn [py_split_go]; [by eauto|].
  destruct (String.index 0 sep s); eauto.
Qed.

Lemma py_split_two_parts (c : Ascii.ascii) (sep' s : string) :
  py_contains (String c sep') s = true →
  ∃ a b rest, py_split (String c sep') s = a :: b :: rest.
Proof.
  unfold py_contains, py_split.
  destruct (String.index 0 (String c sep') s) as [i|] eqn:Hi; [|done].
  intros _. destruct s as [|d s]; [done|].
  cbn [String.length py_split_go]. rewrite Hi.
  match goal with
  | |- context [py_split_go ?fuel ?sep ?t] =>
      destruct (py_split_go_nonempty fuel sep t) as (b & rest & ->)
  end.
  eauto.
Qed.

(** Stripping the code fences never fails, whatever text the service
    returns: when the text contains a fence, splitting on it gives at least
    two parts, so the indexing of lines 281 and 283 cannot raise. *)
Theorem strip_fences_never_raises (text : string) :
  ∃ cleaned, strip_fences text = Ok cleaned.
Proof.
  unfold strip_fences. cbv zeta.
  destruct (py_contains "```json" (py_strip text)) eqn:Hj.
  - destruct (py_split_two_parts _ _ _ Hj) as (a & b & rest & ->).
    cbn [py_item lookup list_lookup rbind].
    destruct (py_split_go_nonempty (String.length b) "```" b) as (x & r & Hx).
    unfold py_split. rewrite Hx. cbn. eauto.
  - destruct (py_contains "```" (py_strip text)) eqn:Hf; [|eauto].
    destruct (py_split_two_parts _ _ _ Hf) as (a & b & rest & ->).
    cbn [py_item lookup list_lookup rbind].
    destruct (py_split_go_nonempty (String.length b) "```" b) as (x & r & Hx).
    unfold py_split. rewrite Hx. cbn. eauto.
Qed.

End FenceStripping.

Section Views.
Variable generate_content : Prompt.t → result string.
Variable json_loads : string → result json.
Variable env : Env.
Open Scope float_scope.

Lemma get_ai_recommendations_same_logs (db db' : Db) (today : Z) (user : User.t) :
  recent_foods db today user = recent_foods db' today user →
  recent_workouts db today user = recent_workouts db' today user →
  get_ai_recommendations generate_content json_loads db today user
  = get_ai_recommendations generate_content json_loads db' today user.
Proof.
  intros Hf Hw.
  unfold get_ai_recommendations, build_prompt, avg_calories, avg_protein,
    days_count, workout_count.
  by rewrite Hf, Hw.
Qed.

Lemma filter_appended_other {A} (P : A → Prop) `{∀ x, Decision (P x)}
    (l : list A) (x : A) :
  ¬ P x → filter P (l ++ [x]) = filter P l.
Proof.
  intros Hx. rewrite filter_app, filter_cons, filter_nil.
  destruct (decide (P x)); [done|]. by rewrite app_nil_r.
Qed.

Lemma filter_appended_own {A} (P : A → Prop) `{∀ x, Decision (P x)}
    (l : list A) (x : A) :
  P x → filter P (l ++ [x]) = filter P l ++ [x].
Proof.
  intros Hx. rewrite filter_app, filter_cons, filter_nil.
  by destruct (decide (P x)).
Qed.

(** What a user is recommended does not depend on what other users log: a
    food entry or a workout session logged by another user leaves the
    result of get_ai_recommendations for this user as it was, for every
    service and parser. *)
Theorem recommendations_ignore_other_users (w : World) (other : Z)
    (food_form : FoodForm.t) (day : Z) (user : User.t) :
  other ≠ User.id user →
  get_ai_recommendations generate_content json_loads
    (pending (snd (food_tracker env other (FoodSubmitted food_form) w))) day user
  = get_ai_recommendations generate_content json_loads (pending w) day user
  ∧ get_ai_recommendations generate_content json_loads
      (pending (snd (start_workout env other w))) day user
    = get_ai_recommendations generate_content json_loads (pending w) day user.
Proof.
  intros Hother. split; apply get_ai_recommendations_same_logs;
    unfold food_tracker, start_workout; unfold_monad;
    cbn [snd pending]; unfold recent_foods, recent_workouts;
    cbn [food_logs workout_sessions with_food_logs with_workout_sessions];
    try reflexivity;
    apply filter_appended_other; cbn; tauto.
Qed.

Lemma dashboard_run (w : World) (uid : Z) :
  dashboard env uid w =
  let foods := filter (λ l, FoodLog.user_id l = uid ∧ FoodLog.date l = today env)
                      (food_logs (pending w)) in
  let sessions := filter (λ s, WorkoutSession.user_id s = uid
                               ∧ WorkoutSession.date s = today env)
                         (workout_sessions (pending w)) in
  match users (pending w) !! uid with
  | Some user =>
      (Ok (Dashboard.mk foods
             (mjoin (map (λ session,
                map (λ exercise_set,
                       (ExerciseSet.exercise_name exercise_set,
                        ExerciseSet.weight exercise_set,
                        ExerciseSet.reps exercise_set,
                        ExerciseSet.set_number exercise_set))
                    (sets_of (pending w) session)) sessions))
             (py_sum (map FoodLog.calories foods))
             (py_sum (map FoodLog.protein foods))
             (py_sum (map FoodLog.carbs foods))
             (py_sum (map FoodLog.fats foods))
             (User.calorie_goal user) (User.protein_goal user)
             (User.carbs_goal user) (User.fats_goal user) (today env)), w)
  | None => (Raise AttributeError, w)
  end.
Proof.
  unfold dashboard. unfold_monad.
  by destruct (users (pending w) !! uid).
Qed.

(** A food entry shows up on the dashboard of the user who logged it, on
    the day it was logged, after the entries that were there; the goals and
    exercise logs shown are the same as before, and the dashboards of all
    other users are what they were.  A form that carries a NaN is not
    stored (the commit raises IntegrityError), and the dashboard of the
    next request is what it was. *)
Theorem dashboard_shows_logged_food (w : World) (uid : Z)
    (food_form : FoodForm.t) :
  pending w = committed w →
  let w1 := snd (run_request
                   (Checked.food_tracker env uid (FoodSubmitted food_form)) w) in
  (if storable [FoodForm.calories food_form; FoodForm.protein food_form;
                FoodForm.carbs food_form; FoodForm.fats food_form]
   then
     match fst (dashboard env uid w), fst (dashboard env uid w1) with
     | Ok d, Ok d1 =>
         Dashboard.food_logs d1
         = Dashboard.food_logs d ++ [logged_food env w uid food_form]
         ∧ Dashboard.exercise_logs d1 = Dashboard.exercise_logs d
         ∧ (Dashboard.calorie_goal d1, Dashboard.protein_goal d1,
            Dashboard.carbs_goal d1, Dashboard.fats_goal d1)
           = (Dashboard.calorie_goal d, Dashboard.protein_goal d,
              Dashboard.carbs_goal d, Dashboard.fats_goal d)
     | Raise e, Raise e1 => e = e1
     | _, _ => False
     end
   else
     fst (run_request
            (Checked.food_tracker env uid (FoodSubmitted food_form)) w)
     = Raise IntegrityError
     ∧ fst (dashboard env uid w1) = fst (dashboard env uid w))
  ∧ ∀ other, other ≠ uid →
      fst (dashboard env other w1) = fst (dashboard env other w).
Proof.
  intros Hclean w1. subst w1. unfold run_request.
  destruct (storable [FoodForm.calories food_form; FoodForm.protein food_form;
                      FoodForm.carbs food_form; FoodForm.fats food_form]) eqn:Hs.
  - rewrite (checked_food_storable env w uid food_form Hs).
    rewrite food_tracker_food_run. cbv zeta. rewrite !dashboard_run.
    cbn [snd teardown pending committed users food_logs workout_sessions
         with_food_logs].
    unfold sets_of. cbn [exercise_sets with_food_logs]. split.
    + destruct (users (pending w) !! uid) as [u|]; cbn [fst]; [|done].
      cbn [Dashboard.food_logs Dashboard.exercise_logs Dashboard.calorie_goal
           Dashboard.protein_goal Dashboard.carbs_goal Dashboard.fats_goal].
      split; [|done]. by apply filter_appended_own.
    + intros other Hother.
      rewrite !dashboard_run.
      cbn [snd teardown pending committed users food_logs workout_sessions
           with_food_logs].
      unfold sets_of. cbn [exercise_sets with_food_logs].
      rewrite (filter_appended_other
                 (λ l, FoodLog.user_id l = other ∧ FoodLog.date l = today env))
        by (cbn; intros [? _]; congruence).
      by destruct (users (pending w) !! other).
  - rewrite (checked_food_nan env w uid food_form Hs).
    cbn [fst snd]. split; [split; [done|]|intros other _];
      rewrite !dashboard_run; cbn [teardown pending committed];
      rewrite <- Hclean; by destruct (users (pending w) !! _).
Qed.

Lemma get_ai_recommendations_built (db : Db) (day : Z) (user : User.t)
    (prompt : Prompt.t) :
  build_prompt db day user = Ok prompt →
  get_ai_recommendations generate_content json_loads db day user
  = Ok (spec_recommendations (parsed_reply generate_content json_loads prompt)).
Proof.
  intros Hp. unfold get_ai_recommendations. rewrite Hp. unfold rbind at 1.
  rewrite try_body_parsed.
  destruct (parsed_reply generate_content json_loads prompt)
    as [parsed|e]; [|reflexivity].
  rewrite <- pick_recommendations_spec. unfold rbind.
  by destruct (pick_recommendations parsed).
Qed.

(** A user with no food entry dated today or later always gets a page from
    /ai-coach: the averages in the prompt are 0, nothing is raised and three
    recommendations are handed to the template, whatever the service does,
    and the database is not written to. *)
Theorem ai_coach_without_food_logs (w : World) (uid : Z) (user : User.t) :
  users (pending w) !! uid = Some user →
  recent_foods (pending w) (today env) user = [] →
  build_prompt (pending w) (today env) user
  = Ok (Prompt.mk (User.age user) (User.gender user) (User.height user)
          (User.weight user) (User.calorie_goal user) (User.protein_goal user)
          0 0 (workout_count (pending w) (today env) user))
  ∧ ∃ recommendations,
      ai_coach generate_content json_loads env uid w = (Ok recommendations, w)
      ∧ py_len recommendations = Ok 3%Z.
Proof.
  intros Hu Hnone.
  assert (build_prompt (pending w) (today env) user
          = Ok (Prompt.mk (User.age user) (User.gender user) (User.height user)
                  (User.weight user) (User.calorie_goal user)
                  (User.protein_goal user) 0 0
                  (workout_count (pending w) (today env) user))) as Hp
    by (unfold build_prompt, avg_calories, avg_protein; by rewrite Hnone).
  split; [exact Hp|].
  eexists. unfold ai_coach. unfold_monad. rewrite Hu.
  rewrite (get_ai_recommendations_built _ _ _ _ Hp).
  split; [reflexivity|apply len_spec_recommendations].
Qed.

End Views.

Section Bootstrap.
Variable generate_password_hash : string → string.
Open Scope float_scope.

(** The start-up block creates the default admin at most once: run on the
    state it leaves behind, it finds the admin by email and changes
    nothing.  It never calls calculate_user_macros: an admin it creates holds
    the column defaults 2000/150/200/65 as goals, not the 2556/140/339.2/71
    the calculator assigns to that profile. *)
Theorem create_default_admin_once (w : World) :
  let w1 := snd (create_default_admin generate_password_hash w) in
  create_default_admin generate_password_hash w1 = (Ok tt, w1)
  ∧ macro_calls w1 = macro_calls w
  ∧ match user_by_email "admin@fitness.com" (pending w) with
    | Some _ => w1 = w
    | None =>
        ∃ admin_user,
          users (committed w1) !! new_user_id w = Some admin_user
          ∧ User.is_admin admin_user = true
          ∧ User.goals admin_user = (2000, 150, 200, 65)
          ∧ User.goals <$> match assign_goals admin_user with
                           | Ok u => Some u | Raise _ => None end
            = Some (2556, 140, 339.2, 71)
    end.
Proof.
  intros w1. subst w1.
  destruct (user_by_email "admin@fitness.com" (pending w)) as [x|] eqn:He.
  - assert (create_default_admin generate_password_hash w = (Ok tt, w)) as Hrun
      by (unfold create_default_admin; unfold_monad; by rewrite He).
    rewrite Hrun. cbn [snd]. by rewrite Hrun.
  - set (admin_user := User.mk (new_user_id w) "Admin" "admin@fitness.com"
           (generate_password_hash "admin123") 175 70 true 30 "male"
           "moderate" "maintain" 2000 150 200 65).
    set (db := with_users (insert (new_user_id w) admin_user) (pending w)).
    assert (create_default_admin generate_password_hash w
            = (Ok tt, mk_world db db (db :: history w) (macro_calls w)
                               (flashes w))) as Hrun
      by (unfold create_default_admin; unfold_monad; by rewrite He).
    rewrite Hrun. cbn [snd macro_calls committed].
    split; [|split; [done|]].
    + unfold create_default_admin. unfold_monad.
      destruct (user_by_email "admin@fitness.com" db) as [y|] eqn:He'; [done|].
      pose proof (proj1 (user_by_email_None _ _) He' (new_user_id w) admin_user)
        as Hno.
      subst db. cbn [users with_users] in Hno. rewrite lookup_insert_eq in Hno.
      by destruct (Hno eq_refl).
    + exists admin_user. subst db. cbn [users with_users].
      rewrite lookup_insert_eq. done.
Qed.

End Bootstrap.

Section RepeatedRegistration.
Variable generate_password_hash : string → string.
Open Scope float_scope.


End RepeatedRegistration.

(** ** The properties above on the sample gym *)

Section GymWitnesses.
Open Scope float_scope.

Lemma gym_food_ids_distinct :
  NoDup (map FoodLog.id (food_logs (pending (world_of gym_db)))).
Proof. apply (bool_decide_unpack _). vm_compute. exact I. Qed.

Lemma gym_session_ids_distinct :
  NoDup (map WorkoutSession.id (workout_sessions (pending (world_of gym_db)))).
Proof. apply (bool_decide_unpack _). vm_compute. exact I. Qed.


Lemma gym_no_orphans : no_orphans (pending (world_of gym_db)).
Proof.
  intros e He. cbn in He.
  repeat (apply elem_of_cons in He as [->|He]);
    [exists (WorkoutSession.mk 1 1 739000 100 None None)
    |exists (WorkoutSession.mk 1 1 739000 100 None None)
    |exists (WorkoutSession.mk 2 2 739000 300 None None)
    |by apply not_elem_of_nil in He];
    (split; [in_list|reflexivity]).
Qed.


Lemma delete_food_removes_own_row_only_witness :
  NoDup (map FoodLog.id (food_logs (pending (world_of gym_db))))
  ∧ FoodLog.mk 4 2 739000 "Soup" 200 8 20 5 40
    ∈ food_logs (pending (snd (delete_food 1 4 (world_of gym_db))))
  ∧ users (pending (snd (delete_food 1 4 (world_of gym_db))))
    = users (pending (world_of gym_db)).
Proof.
  split; [exact gym_food_ids_distinct|].
  destruct (delete_food_removes_own_row_only (world_of gym_db) 1 4
              gym_food_ids_distinct) as (Hrows & Husers & _).
  split; [|exact Husers].
  apply Hrows. split; [in_list|]. intros [_ Howner]. discriminate Howner.
Defined.

Lemma food_log_then_delete_restores_witness :
  pending (world_of gym_db) = committed (world_of gym_db)
  ∧ committed (snd (run_request (delete_food 1 5)
        (snd (run_request
                (Checked.food_tracker sample_env 1 (FoodSubmitted eggs_form))
                (world_of gym_db)))))
    = committed (world_of gym_db)
  ∧ fst (run_request (delete_food 1 5)
        (snd (run_request
                (Checked.food_tracker sample_env 1
                   (FoodSubmitted (FoodForm.mk "Eggs" nan 12 1 10)))
                (world_of gym_db))))
    = Raise NotFound.
Proof.
  split; [reflexivity|]. split.
  - exact (proj1 (proj2 (proj2 (food_log_then_delete_restores sample_env
                                  (world_of gym_db) 1 eggs_form eq_refl)))).
  - exact (proj2 (proj2 (food_log_then_delete_restores sample_env
                           (world_of gym_db) 1
                           (FoodForm.mk "Eggs" nan 12 1 10) eq_refl))).
Defined.

Lemma weight_log_then_delete_keeps_profile_witness :
  pending (world_of settled_db) = committed (world_of settled_db)
  ∧ users (pending (world_of settled_db)) !! 1%Z = Some settled_admin
  ∧ body_weight_logs (committed (snd (run_request (delete_weight 1 1)
        (snd (run_request
                (Checked.food_tracker sample_env 1 (WeightSubmitted 80))
                (world_of settled_db))))))
    = []
  ∧ fst (run_request (delete_weight 1 1)
        (snd (run_request
                (Checked.food_tracker sample_env 1 (WeightSubmitted nan))
                (world_of settled_db))))
    = Raise NotFound.
Proof.
  split; [reflexivity|]. split; [reflexivity|]. split.
  - exact (proj1 (proj2 (weight_log_then_delete_keeps_profile sample_env
                           (world_of settled_db) 1 settled_admin 80
                           eq_refl eq_refl))).
  - exact (proj1 (proj2 (proj2 (weight_log_then_delete_keeps_profile sample_env
                                  (world_of settled_db) 1 settled_admin nan
                                  eq_refl eq_refl)))).
Defined.



Lemma delete_workout_session_keeps_no_orphans_witness :
  NoDup (map WorkoutSession.id (workout_sessions (pending (world_of gym_db))))
  ∧ no_orphans (pending (world_of gym_db))
  ∧ no_orphans (pending (snd (delete_workout_session 1 1 (world_of gym_db)))).
Proof.
  split; [exact gym_session_ids_distinct|]. split; [exact gym_no_orphans|].
  exact (delete_workout_session_keeps_no_orphans (world_of gym_db) 1 1
           gym_session_ids_distinct gym_no_orphans).
Defined.



Lemma recommendations_ignore_other_users_witness :
  2%Z ≠ User.id settled_admin
  ∧ get_ai_recommendations fenced_tips_service sample_json_loads
      (pending (snd (food_tracker sample_env 2 (FoodSubmitted eggs_form)
                       (world_of gym_db)))) 739000 settled_admin
    = get_ai_recommendations fenced_tips_service sample_json_loads
        (pending (world_of gym_db)) 739000 settled_admin.
Proof.
  split; [done|].
  exact (proj1 (recommendations_ignore_other_users fenced_tips_service
                  sample_json_loads sample_env (world_of gym_db) 2 eggs_form
                  739000 settled_admin ltac:(done))).
Defined.

Lemma dashboard_shows_logged_food_witness :
  pending (world_of gym_db) = committed (world_of gym_db)
  ∧ 2%Z ≠ 1%Z
  ∧ fst (dashboard sample_env 2
           (snd (run_request
                   (Checked.food_tracker sample_env 1 (FoodSubmitted eggs_form))
                   (world_of gym_db))))
    = fst (dashboard sample_env 2 (world_of gym_db)).
Proof.
  split; [reflexivity|]. split; [done|].
  exact (proj2 (dashboard_shows_logged_food sample_env (world_of gym_db) 1
                  eggs_form eq_refl) 2%Z ltac:(done)).
Defined.

Lemma ai_coach_without_food_logs_witness :
  users (pending (world_of settled_db)) !! 1%Z = Some settled_admin
  ∧ recent_foods (pending (world_of settled_db)) (today sample_env)
                 settled_admin = []
  ∧ ∃ recommendations,
      ai_coach failing_service sample_json_loads sample_env 1
               (world_of settled_db)
      = (Ok recommendations, world_of settled_db)
      ∧ py_len recommendations = Ok 3%Z.
Proof.
  split; [reflexivity|]. split; [reflexivity|].
  exact (proj2 (ai_coach_without_food_logs failing_service sample_json_loads
                  sample_env (world_of settled_db) 1 settled_admin
                  eq_refl eq_refl)).
Defined.


End GymWitnesses.

Section Divisor.
Open Scope float_scope.

(** With the window reduced to today, the daily average is not an average:
    when no food entry is dated in the future, the entries selected by
    get_ai_recommendations are the ones the dashboard totals for the same
    day, they all fall on one day, and the sums are divided by 1. *)
Theorem daily_average_divides_by_one (env : Env) (w : World) (user : User.t) :
  (∀ f, f ∈ food_logs (pending w) → (FoodLog.date f ≤ today env)%Z) →
  days_count (pending w) (today env) user = 1%Z
  ∧ match fst (dashboard env (User.id user) w) with
    | Ok d => Dashboard.food_logs d
              = recent_foods (pending w) (today env) user
    | Raise _ => users (pending w) !! User.id user = None
    end.
Proof.
  intros Hpast.
  assert (recent_foods (pending w) (today env) user
          = filter (λ l, FoodLog.user_id l = User.id user
                         ∧ FoodLog.date l = today env) (food_logs (pending w)))
    as Hsame.
  { unfold recent_foods, week_ago, timedelta.
    induction (food_logs (pending w)) as [|f l IH]; [done|].
    rewrite !filter_cons, IH
      by (intros x Hx; apply Hpast; by apply list_elem_of_further).
    pose proof (Hpast f (list_elem_of_here f l)) as Hf.
    destruct (decide (FoodLog.user_id f = User.id user
                      ∧ (today env - 0 ≤ FoodLog.date f)%Z)) as [[? ?]|Hn];
      destruct (decide (FoodLog.user_id f = User.id user
                        ∧ FoodLog.date f = today env)) as [[? ?]|Hm];
      try done.
    - destruct Hm. split; [done|lia].
    - destruct Hn. split; [done|lia]. }
  split.
  - unfold days_count. rewrite Hsame.
    assert (list_to_set (C:=gset Z)
              (map FoodLog.date
                 (filter (λ l, FoodLog.user_id l = User.id user
                               ∧ FoodLog.date l = today env)
                         (food_logs (pending w))))
            ⊆ {[today env]}) as Hsub.
    { intros d Hd. apply elem_of_list_to_set, list_elem_of_In, in_map_iff in Hd
        as (f & <- & Hf).
      apply list_elem_of_In, list_elem_of_filter in Hf as [[_ ->] _].
      by apply elem_of_singleton. }
    apply subseteq_size in Hsub. rewrite size_singleton in Hsub. lia.
  - rewrite dashboard_run. cbv zeta.
    destruct (users (pending w) !! User.id user); cbn [fst]; [|done].
    by rewrite Hsame.
Qed.

Lemma daily_average_divides_by_one_witness :
  (∀ f, f ∈ food_logs (pending (world_of gym_db)) →
        (FoodLog.date f ≤ today sample_env)%Z)
  ∧ days_count (pending (world_of gym_db)) (today sample_env) settled_admin = 1%Z.
Proof.
  assert (∀ f, f ∈ food_logs (pending (world_of gym_db)) →
               (FoodLog.date f ≤ today sample_env)%Z) as Hpast.
  { intros f Hf. cbn in Hf.
    repeat (apply elem_of_cons in Hf as [->|Hf]); try (cbn; lia).
    by apply not_elem_of_nil in Hf. }
  split; [exact Hpast|].
  exact (proj1 (daily_average_divides_by_one sample_env (world_of gym_db)
                  settled_admin Hpast)).
Defined.

End Divisor.

Section FenceExtraction.

Lemma prefix_append (s t : string) : String.prefix s (s +:+ t) = true.
Proof.
  induction s as [|a s IH]; [by destruct t|].
  change (String a s +:+ t) with (String a (s +:+ t)). cbn [String.prefix].
  destruct (Ascii.ascii_dec a a); [exact IH|done].
Qed.

Lemma index_at_start (c : Ascii.ascii) (sep t : string) :
  String.index 0 (String c sep) (String c sep +:+ t) = Some 0%nat.
Proof.
  change (String c sep +:+ t) with (String c (sep +:+ t)).
  cbn [String.index].
  change (String c (sep +:+ t)) with (String c sep +:+ t).
  by rewrite prefix_append.
Qed.

Lemma substring_whole (t : string) : String.substring 0 (String.length t) t = t.
Proof. induction t as [|a t IH]; [done|]. cbn. by rewrite IH. Qed.

Lemma substring_after (a t : string) (n : nat) :
  String.substring (String.length a) n (a +:+ t) = String.substring 0 n t.
Proof. induction a as [|x a IH]; [done|]. cbn. apply IH. Qed.

Lemma substring_before (a t : string) :
  String.substring 0 (String.length a) (a +:+ t) = a.
Proof.
  induction a as [|x a IH]; [by destruct t|].
  change (String x a +:+ t) with (String x (a +:+ t)).
  cbn [String.length String.substring]. by rewrite IH.
Qed.

Lemma length_append (a t : string) :
  String.length (a +:+ t) = (String.length a + String.length t)%nat.
Proof.
  induction a as [|x a IH]; [done|].
  change (String x a +:+ t) with (String x (a +:+ t)).
  cbn [String.length Nat.add]. by rewrite IH.
Qed.

(** A separator starting with [c] is first found in [body +:+ t] where it is
    first found in [t], when [c] does not occur in [body]. *)
Lemma index_past (c : Ascii.ascii) (sep body t : string) :
  String.index 0 (String c EmptyString) body = None →
  String.index 0 (String c sep) (body +:+ t)
  = (λ i, (String.length body + i)%nat) <$> String.index 0 (String c sep) t.
Proof.
  induction body as [|b body IH]; intros Hfree.
  - change (EmptyString +:+ t) with t.
    destruct (String.index 0 (String c sep) t); reflexivity.
  - cbn [String.index] in Hfree.
    cbn [String.prefix] in Hfree.
    destruct (Ascii.ascii_dec c b) as [->|Hcb].
    { by destruct body. }
    destruct (String.index 0 (String c EmptyString) body) as [n|] eqn:Hb;
      [done|].
    change (String b body +:+ t) with (String b (body +:+ t)).
    cbn [String.index String.prefix].
    destruct (Ascii.ascii_dec c b) as [->|_]; [done|].
    rewrite (IH eq_refl).
    by destruct (String.index 0 (String c sep) t).
Qed.

Lemma append_empty (s : string) : s +:+ EmptyString = s.
Proof.
  induction s as [|a s IH]; [done|].
  change (String a s +:+ EmptyString) with (String a (s +:+ EmptyString)).
  by rewrite IH.
Qed.

Lemma index_absent (c : Ascii.ascii) (sep body : string) :
  String.index 0 (String c EmptyString) body = None →
  String.index 0 (String c sep) body = None.
Proof.
  intros Hfree. pose proof (index_past c sep body EmptyString Hfree) as H.
  by rewrite append_empty in H.
Qed.

Lemma py_split_go_first (fuel : nat) (c : Ascii.ascii) (sep s : string) :
  (fuel = 0%nat → s = EmptyString) →
  py_item (py_split_go fuel (String c sep) s) 0
  = Ok (match String.index 0 (String c sep) s with
        | Some i => String.substring 0 i s
        | None => s
        end).
Proof.
  intros Hfuel. destruct fuel as [|fuel].
  - by rewrite (Hfuel eq_refl).
  - cbn [py_split_go]. by destruct (String.index 0 (String c sep) s).
Qed.

Lemma py_split_first (c : Ascii.ascii) (sep s : string) :
  py_item (py_split (String c sep) s) 0
  = Ok (match String.index 0 (String c sep) s with
        | Some i => String.substring 0 i s
        | None => s
        end).
Proof.
  unfold py_split. apply py_split_go_first. by destruct s.
Qed.

Lemma substring_skip (a t : string) (k n : nat) :
  String.substring (String.length a + k) n (a +:+ t) = String.substring k n t.
Proof.
  induction a as [|x a IH]; [done|].
  change (String x a +:+ t) with (String x (a +:+ t)).
  cbn [String.length Nat.add String.substring]. apply IH.
Qed.

Lemma index_after_preamble (c : Ascii.ascii) (sep pre r : string) :
  String.index 0 (String c EmptyString) pre = None →
  String.index 0 (String c sep) (pre +:+ String c sep +:+ r)
  = Some (String.length pre).
Proof.
  intros Hpre. rewrite (index_past c sep pre _ Hpre), index_at_start.
  cbn [fmap option_fmap option_map]. by rewrite Nat.add_0_r.
Qed.

Lemma py_split_second (c : Ascii.ascii) (sep pre r : string) :
  String.index 0 (String c EmptyString) pre = None →
  py_item (py_split (String c sep) (pre +:+ String c sep +:+ r)) 1
  = Ok (match String.index 0 (String c sep) r with
        | Some i => String.substring 0 i r
        | None => r
        end).
Proof.
  intros Hpre. unfold py_split.
  assert (String.length (pre +:+ String c sep +:+ r)
          = S (String.length pre + String.length sep + String.length r)) as Hlen
    by (rewrite !length_append; cbn; lia).
  rewrite Hlen at 1. cbn [py_split_go].
  rewrite (index_after_preamble c sep pre r Hpre).
  change (py_item (?x :: ?l) 1) with (py_item l 0).
  replace (String.substring _ _ (pre +:+ String c sep +:+ r)) with r.
  - apply py_split_go_first. intros H0. destruct r; [done|]. cbn in H0. lia.
  - rewrite substring_skip, substring_after.
    replace (String.length (pre +:+ String c sep +:+ r) - String.length pre
             - String.length (String c sep))%nat with (String.length r)
      by (rewrite Hlen; cbn; lia).
    by rewrite substring_whole.
Qed.

(** A reply in a fence labelled json gives the text inside the fence.  When
    the stripped text of the service is a preamble without backticks, the
    opening fence, a body without backticks, the closing fence and a rest in
    which no further json fence starts, the text handed to the parser is the
    body, stripped of white space. *)
Theorem fenced_json_is_extracted (text pre body rest : string) :
  py_strip text = pre +:+ "```json" +:+ body +:+ "```" +:+ rest →
  String.index 0 "`" pre = None →
  String.index 0 "`" body = None →
  String.index 0 "```json" ("```" +:+ rest) = None →
  strip_fences text = Ok (py_strip body).
Proof.
  intros Htext Hpre Hbody Hrest. unfold strip_fences. cbv zeta. rewrite Htext.
  unfold py_contains at 1. rewrite (index_after_preamble _ _ pre _ Hpre).
  rewrite (py_split_second _ _ pre _ Hpre).
  rewrite (index_past _ _ body ("```" +:+ rest) Hbody), Hrest.
  cbn [fmap option_fmap option_map rbind].
  rewrite py_split_first.
  rewrite (index_past _ _ body ("```" +:+ rest) Hbody), index_at_start.
  cbn [fmap option_fmap option_map rbind].
  by rewrite Nat.add_0_r, substring_before.
Qed.

(** A reply in a fence without a label gives the text inside the fence, under
    the same conditions, when the text has no fence labelled json. *)
Theorem fenced_block_is_extracted (text pre body rest : string) :
  py_strip text = pre +:+ "```" +:+ body +:+ "```" +:+ rest →
  String.index 0 "`" pre = None →
  String.index 0 "`" body = None →
  py_contains "```json" (py_strip text) = false →
  strip_fences text = Ok (py_strip body).
Proof.
  intros Htext Hpre Hbody Hjson. unfold strip_fences. cbv zeta.
  rewrite Hjson, Htext.
  unfold py_contains. rewrite (index_after_preamble _ _ pre _ Hpre).
  rewrite (py_split_second _ _ pre _ Hpre).
  rewrite (index_past _ _ body ("```" +:+ rest) Hbody), index_at_start.
  cbn [fmap option_fmap option_map rbind].
  rewrite Nat.add_0_r, substring_before.
  by rewrite py_split_first, (index_absent _ _ body Hbody).
Qed.

Lemma fenced_json_is_extracted_witness :
  py_strip fenced_tips_text
  = "Here you go:
" +:+ "```json" +:+ ("
" +:+ tips_reply +:+ "
") +:+ "```" +:+ EmptyString
  ∧ String.index 0 "`" "Here you go:
" = None
  ∧ String.index 0 "`" ("
" +:+ tips_reply +:+ "
") = None
  ∧ String.index 0 "```json" ("```" +:+ EmptyString) = None
  ∧ strip_fences fenced_tips_text = Ok tips_reply.
Proof.
  split; [reflexivity|]. split; [reflexivity|]. split; [reflexivity|].
  split; [reflexivity|].
  rewrite (fenced_json_is_extracted fenced_tips_text "Here you go:
" ("
" +:+ tips_reply +:+ "
") EmptyString eq_refl eq_refl eq_refl eq_refl).
  reflexivity.
Defined.

Lemma fenced_block_is_extracted_witness :
  py_strip fenced_numbers_text
  = EmptyString +:+ "```" +:+ ("
" +:+ numbers_reply +:+ "
") +:+ "```" +:+ EmptyString
  ∧ String.index 0 "`" EmptyString = None
  ∧ String.index 0 "`" ("
" +:+ numbers_reply +:+ "
") = None
  ∧ py_contains "```json" (py_strip fenced_numbers_text) = false
  ∧ strip_fences fenced_numbers_text = Ok numbers_reply.
Proof.
  split; [reflexivity|]. split; [reflexivity|]. split; [reflexivity|].
  split; [reflexivity|].
  rewrite (fenced_block_is_extracted fenced_numbers_text EmptyString ("
" +:+ numbers_reply +:+ "
") EmptyString eq_refl eq_refl eq_refl eq_refl).
  reflexivity.
Defined.

End FenceExtraction.

Section LocalChanges.
Variable env : Env.
Open Scope float_scope.

(** A request to /food-tracker or /settings writes to the profile of the
    current user only: the row of every other user is after the request
    what it was before, whatever is submitted and whether or not the
    recomputation succeeds. *)
Theorem profile_changes_are_local (w : World) (uid other : Z) :
  other ≠ uid →
  (∀ req,
     users (pending (snd (food_tracker env uid req w))) !! other
     = users (pending w) !! other)
  ∧ (∀ form,
     users (pending (snd (settings uid form w))) !! other
     = users (pending w) !! other).
Proof.
  intros Hother. split.
  - intros [food_form|weight|]; [reflexivity| |reflexivity].
    destruct (users (pending w) !! uid) as [u|] eqn:Hu.
    + rewrite (food_tracker_weight_run env w uid u weight Hu). cbv zeta.
      unfold weight_logged.
      destruct (assign_goals (User.set_weight u weight)) as [u'|e];
        [destruct (macros_dict (User.set_weight u weight))|];
        cbn [snd pending users with_users with_body_weight_logs];
        by rewrite !lookup_insert_ne.
    + unfold food_tracker. unfold_monad. cbn [users with_body_weight_logs].
      by rewrite Hu.
  - intros [[[weight activity_level] goal]|]; [|reflexivity].
    destruct (users (pending w) !! uid) as [u|] eqn:Hu.
    + rewrite (settings_run w uid u weight activity_level goal Hu). cbv zeta.
      destruct (assign_goals (User.set_settings u weight activity_level goal))
        as [u'|e];
        [destruct (macros_dict (User.set_settings u weight activity_level goal))|];
        cbn [snd pending users with_users];
        by rewrite !lookup_insert_ne.
    + unfold settings. unfold_monad. by rewrite Hu.
Qed.

End LocalChanges.

Lemma profile_changes_are_local_witness :
  2%Z ≠ 1%Z
  ∧ users (pending (snd (food_tracker sample_env 1 (WeightSubmitted 80)
                           (world_of gym_db)))) !! 2%Z
    = users (pending (world_of gym_db)) !! 2%Z.
Proof.
  split; [done|].
  exact (proj1 (profile_changes_are_local sample_env (world_of gym_db) 1 2
                  ltac:(done)) (WeightSubmitted 80)).
Defined.
